(** * css_check.py: the stylesheet-hygiene scanner of talawa-admin

    A shallow embedding of [.github/workflows/css_check.py] and the
    properties of its scan: [check_embedded_css], [check_files] and [main].

    Python strings are [string]s whose characters are code points below 256.
    The script's state (three result lists and what it prints) is threaded
    explicitly.  The operating system is an interface, [OS], so the scanner's
    theorems hold for every file system; [TreeFS] is one implementation, a
    POSIX directory tree, used where a claim is about [os.walk] itself and
    for concrete runs. *)

From Stdlib Require Import Ascii String List Bool Arith Lia ZArith Permutation.
Import ListNotations.
Open Scope string_scope.
Open Scope list_scope.

(** ** Python [str] methods used by the script *)

Module Str.

Definition chr (n : nat) : ascii := ascii_of_nat n.

(** The line feed, as a one-character string. *)
Definition nl : string := Eval cbv in String (chr 10) EmptyString.

Fixpoint take (n : nat) (s : string) : string :=
  match n, s with
  | S k, String c t => String c (take k t)
  | _, _ => EmptyString
  end.

Fixpoint drop (n : nat) (s : string) : string :=
  match n, s with
  | S k, String _ t => drop k t
  | _, _ => s
  end.

(** [s.startswith(p)] *)
Fixpoint startswith (s p : string) : bool :=
  match p with
  | EmptyString => true
  | String a p' =>
      match s with
      | EmptyString => false
      | String b s' => Ascii.eqb b a && startswith s' p'
      end
  end.

(** [s.endswith(p)] *)
Definition endswith (s p : string) : bool :=
  Nat.leb (String.length p) (String.length s)
  && String.eqb (drop (String.length s - String.length p) s) p.

(** [sub in s] *)
Fixpoint contains (sub s : string) : bool :=
  startswith s sub
  || match s with
     | EmptyString => false
     | String _ t => contains sub t
     end.

(** [sep.join(l)] *)
Fixpoint join (sep : string) (l : list string) : string :=
  match l with
  | [] => EmptyString
  | [x] => x
  | x :: r => x ++ sep ++ join sep r
  end.

(** [s.split(sep)] for a one-character separator. *)
Fixpoint split (sep : ascii) (s : string) : list string :=
  match s with
  | EmptyString => [EmptyString]
  | String c t =>
      if Ascii.eqb c sep then EmptyString :: split sep t
      else match split sep t with
           | h :: r => String c h :: r
           | [] => [String c EmptyString]
           end
  end.

(** [s.rstrip(c)] for a one-character set. *)
Fixpoint rstrip (c : ascii) (s : string) : string :=
  match s with
  | EmptyString => EmptyString
  | String a t =>
      match rstrip c t with
      | EmptyString => if Ascii.eqb a c then EmptyString else String a EmptyString
      | r => String a r
      end
  end.

(** [x in l] for a collection of strings. *)
Definition mem (x : string) (l : list string) : bool :=
  existsb (String.eqb x) l.

End Str.

(** ** The fragment of Python's [re] the two patterns need

    A backtracking matcher in continuation-passing style: alternatives are
    tried in the order Python's engine tries them (greedy repeats take one
    more iteration first, lazy repeats stop first), and the value of the
    capture group is threaded through the continuation, so that a group
    inside a repeat holds the text of its last iteration.  Both patterns of
    the script have exactly one capture group. *)

Module Re.

Inductive regex : Type :=
| Chr (c : ascii)                       (* a literal character *)
| Cls (p : ascii -> bool)               (* a character class *)
| Cat (r1 r2 : regex)                   (* r1 r2 *)
| Repeat (greedy : bool) (lo : nat) (hi : option nat) (r : regex)
                                        (* r{lo,hi}, r{lo,} and their lazy forms *)
| Grp (r : regex)                       (* ( r ), capture group 1 *)
| Eps.                                  (* the empty pattern *)

(** What is left of the subject and the text of group 1, if it took part. *)
Definition outcome : Type := string * option string.
Definition cont : Type := string -> option string -> option outcome.

(** [budget] bounds the number of further iterations ([hi], or the length
    of the subject for an unbounded repeat: the repeated bodies of both
    patterns consume one character per iteration). *)
Fixpoint rep_loop (body : string -> option string -> cont -> option outcome)
         (greedy : bool) (budget lo : nat)
         (s : string) (g : option string) (k : cont) : option outcome :=
  if greedy then
    match
      match budget with
      | 0 => None
      | S b => body s g (fun s1 g1 => rep_loop body greedy b (pred lo) s1 g1 k)
      end
    with
    | Some o => Some o
    | None => match lo with 0 => k s g | S _ => None end
    end
  else
    match
      match lo with 0 => k s g | S _ => None end
    with
    | Some o => Some o
    | None =>
        match budget with
        | 0 => None
        | S b => body s g (fun s1 g1 => rep_loop body greedy b (pred lo) s1 g1 k)
        end
    end.

Fixpoint run (r : regex) (s : string) (g : option string) (k : cont)
  : option outcome :=
  match r with
  | Chr c =>
      match s with
      | String a t => if Ascii.eqb a c then k t g else None
      | EmptyString => None
      end
  | Cls p =>
      match s with
      | String a t => if p a then k t g else None
      | EmptyString => None
      end
  | Cat r1 r2 => run r1 s g (fun s1 g1 => run r2 s1 g1 k)
  | Repeat greedy lo hi r1 =>
      rep_loop (run r1) greedy
               (match hi with Some h => h | None => String.length s end)
               lo s g k
  | Grp r1 =>
      run r1 s g
          (fun s1 _ => k s1 (Some (Str.take (String.length s - String.length s1) s)))
  | Eps => k s g
  end.

(** A match anchored at the start of [s]: its length and group 1. *)
Definition match_at (r : regex) (s : string) : option (nat * option string) :=
  match run r s None (fun s1 g1 => Some (s1, g1)) with
  | Some (s1, g1) => Some (String.length s - String.length s1, g1)
  | None => None
  end.

Record match_obj : Type :=
  { m_start : nat; m_end : nat; m_group1 : option string }.

(** [re.finditer]: leftmost matches, the search resuming where the previous
    match ended.  [skip] counts the characters of the previous match still
    to step over. *)
Fixpoint finditer_from (r : regex) (pos skip : nat) (s : string)
  : list match_obj :=
  match skip with
  | S k =>
      match s with
      | EmptyString => []
      | String _ t => finditer_from r (S pos) k t
      end
  | 0 =>
      match match_at r s with
      | Some (len, g1) =>
          {| m_start := pos; m_end := pos + len; m_group1 := g1 |}
            :: match s with
               | EmptyString => []
               | String _ t => finditer_from r (S pos) (pred len) t
               end
      | None =>
          match s with
          | EmptyString => []
          | String _ t => finditer_from r (S pos) 0 t
          end
      end
  end.

Definition finditer (r : regex) (s : string) : list match_obj :=
  finditer_from r 0 0 s.

(** [re.findall] for a pattern with one group: the list of the group's
    texts (the empty string where the group took no part). *)
Definition findall (r : regex) (s : string) : list string :=
  map (fun m => match m_group1 m with Some g => g | None => EmptyString end)
      (finditer r s).

(** The literal text [w] as a pattern. *)
Fixpoint lit (w : string) : regex :=
  match w with
  | EmptyString => Eps
  | String c t => Cat (Chr c) (lit t)
  end.

(** Character classes. *)
Definition in_range (lo hi : nat) (c : ascii) : bool :=
  Nat.leb lo (nat_of_ascii c) && Nat.leb (nat_of_ascii c) hi.

(** [[0-9a-fA-F]] *)
Definition hex_digit (c : ascii) : bool :=
  in_range 48 57 c || in_range 97 102 c || in_range 65 70 c.

(** [\s] on a [str] pattern: Unicode white space, here below 256. *)
Definition space (c : ascii) : bool :=
  in_range 9 13 c || in_range 28 32 c
  || Nat.eqb (nat_of_ascii c) 133 || Nat.eqb (nat_of_ascii c) 160.

(** [.] without DOTALL: anything but a line feed. *)
Definition dot (c : ascii) : bool := negb (Nat.eqb (nat_of_ascii c) 10).

(** The class of the two quote characters, double (34) and single (39). *)
Definition quote (c : ascii) : bool :=
  Nat.eqb (nat_of_ascii c) 34 || Nat.eqb (nat_of_ascii c) 39.

End Re.

(** ** [posixpath]: the path functions the script calls *)

Module PosixPath.

Definition isabs (p : string) : bool := Str.startswith p "/".

(** [os.path.join(a, b)] *)
Definition join (a b : string) : string :=
  if Str.startswith b "/" then b
  else if String.eqb a "" || Str.endswith a "/" then a ++ b
  else a ++ "/" ++ b.

(** [p[:p.rfind('/') + 1]] *)
Fixpoint upto_last_slash (p : string) : string :=
  match p with
  | EmptyString => EmptyString
  | String c t =>
      match upto_last_slash t with
      | EmptyString => if Ascii.eqb c "/" then "/" else EmptyString
      | r => String c r
      end
  end.

Fixpoint all_slashes (p : string) : bool :=
  match p with
  | EmptyString => true
  | String c t => Ascii.eqb c "/" && all_slashes t
  end.

(** [os.path.dirname(p)] *)
Definition dirname (p : string) : string :=
  let head := upto_last_slash p in
  if negb (String.eqb head "") && negb (all_slashes head)
  then Str.rstrip "/" head
  else head.

Definition is_nil {A : Type} (l : list A) : bool :=
  match l with [] => true | _ :: _ => false end.

Fixpoint slashes (n : nat) : string :=
  match n with 0 => EmptyString | S k => String "/" (slashes k) end.

(** One turn of the loop of [normpath] over the components. *)
Definition normpath_step (initial_slashes : nat) (new_comps : list string)
           (comp : string) : list string :=
  if String.eqb comp "" || String.eqb comp "." then new_comps
  else if negb (String.eqb comp "..")
          || (Nat.eqb initial_slashes 0 && is_nil new_comps)
          || (negb (is_nil new_comps) && String.eqb (last new_comps "") "..")
  then new_comps ++ [comp]
  else if negb (is_nil new_comps) then removelast new_comps
  else new_comps.

(** [os.path.normpath(path)] *)
Definition normpath (path : string) : string :=
  if String.eqb path "" then "."
  else
    let initial_slashes :=
      if Str.startswith path "/"
      then if Str.startswith path "//" && negb (Str.startswith path "///")
           then 2 else 1
      else 0 in
    let comps := Str.split "/" path in
    let new_comps := fold_left (normpath_step initial_slashes) comps [] in
    let path := (slashes initial_slashes ++ Str.join "/" new_comps)%string in
    if String.eqb path "" then "." else path.

(** [os.path.abspath(path)], in the working directory [cwd]. *)
Definition abspath (cwd path : string) : string :=
  normpath (if isabs path then path else join cwd path).

End PosixPath.

(** ** The operating system, as the script sees it *)

Record OS : Type := {
  (** [os.getcwd()] *)
  getcwd : string;
  (** [os.path.exists(p)] *)
  path_exists : string -> bool;
  (** [os.walk(top)]: the triples [(root, dirs, files)] in the order they
      are yielded. *)
  walk : string -> list (string * list string * list string);
  (** [open(p, "r", encoding="utf-8").read()]: the text, or the message of
      the [IOError] or [UnicodeDecodeError] raised. *)
  read_text : string -> string + string
}.

(** ** The script's data *)

Record Violation : Type :=
  mkViolation { v_file_path : string; v_css_file : string; v_reason : string }.

Record CorrectImport : Type :=
  mkCorrectImport { c_file_path : string; c_css_file : string }.

Record EmbeddedViolation : Type :=
  mkEmbeddedViolation { e_file_path : string; e_css_codes : list string }.

Record CSSCheckResult : Type :=
  mkCSSCheckResult {
      violations : list Violation;
      correct_imports : list CorrectImport;
      embedded_violations : list EmbeddedViolation }.

(** The locals of [check_files] while it runs, with the lines printed so far
    (one entry per call of [print]). *)
Record scan : Type :=
  mkScan {
      loc_violations : list Violation;
      loc_correct_css_imports : list CorrectImport;
      loc_embedded_css_violations : list EmbeddedViolation;
      printed : list string }.

Definition add_violation (st : scan) (v : Violation) : scan :=
  mkScan (loc_violations st ++ [v]) (loc_correct_css_imports st)
         (loc_embedded_css_violations st) (printed st).

Definition add_correct_import (st : scan) (c : CorrectImport) : scan :=
  mkScan (loc_violations st) (loc_correct_css_imports st ++ [c])
         (loc_embedded_css_violations st) (printed st).

Definition add_embedded_violation (st : scan) (e : EmbeddedViolation) : scan :=
  mkScan (loc_violations st) (loc_correct_css_imports st)
         (loc_embedded_css_violations st ++ [e]) (printed st).

Definition print (st : scan) (line : string) : scan :=
  mkScan (loc_violations st) (loc_correct_css_imports st)
         (loc_embedded_css_violations st) (printed st ++ [line]).

(** Truth value of a Python list. *)
Definition truthy {A : Type} (l : list A) : bool :=
  match l with [] => false | _ :: _ => true end.

(** ** [check_embedded_css] *)

(** [#([0-9a-fA-F]{3}){1,2}] *)
Definition embedded_css_pattern : Re.regex :=
  Re.Cat (Re.Chr "#")
         (Re.Repeat true 1 (Some 2)
                    (Re.Grp (Re.Repeat true 3 (Some 3) (Re.Cls Re.hex_digit)))).

Definition check_embedded_css (content : string) : list string :=
  Re.findall embedded_css_pattern content.

(** ** [check_files] *)

(** The f-string of line 68. *)
Definition read_error_line (file_path e : string) : string :=
  "Error reading file " ++ file_path ++ ": " ++ e.

(** The pattern of line 72: [import], [\s+], [.*?], a quote, the group
    [(.+?\.css)], a quote. *)
Definition css_import_pattern : Re.regex :=
  Re.Cat (Re.lit "import")
    (Re.Cat (Re.Repeat true 1 None (Re.Cls Re.space))
      (Re.Cat (Re.Repeat false 0 None (Re.Cls Re.dot))
        (Re.Cat (Re.Cls Re.quote)
          (Re.Cat (Re.Grp (Re.Cat (Re.Repeat false 1 None (Re.Cls Re.dot))
                                  (Re.lit ".css")))
                  (Re.Cls Re.quote))))).

Section Scanner.

Variable os : OS.

Definition abspath (p : string) : string := PosixPath.abspath (getcwd os) p.

Variable directory : string.
(** The two exclusion sets after lines 47-48, and the allowed patterns. *)
Variable exclude_files : list string.
Variable exclude_directories : list string.
Variable allowed_css_patterns : list string.

(** Lines 75-88: one turn of the loop over [css_imports]. *)
Definition import_step (file_path : string) (st : scan) (css_file : string)
  : scan :=
  let css_file_path := PosixPath.join (PosixPath.dirname file_path) css_file in
  let css_file_path :=
    if negb (path_exists os css_file_path)
    then let src_dir := abspath directory in
         PosixPath.join src_dir css_file
    else css_file_path in
  if negb (path_exists os css_file_path)
  then add_violation st (mkViolation file_path css_file "File not found")
  else if existsb (fun pattern => Str.endswith css_file pattern)
                  allowed_css_patterns
  then add_correct_import st (mkCorrectImport file_path css_file)
  else add_violation st (mkViolation file_path css_file "Invalid import").

(** Lines 71-93: what is done with the text of a file that was read. *)
Definition analyze (file_path : string) (st : scan) (content : string)
  : scan :=
  let css_imports := Re.findall css_import_pattern content in
  let st := fold_left (import_step file_path) css_imports st in
  let embedded_css := check_embedded_css content in
  if truthy embedded_css
  then add_embedded_violation st (mkEmbeddedViolation file_path embedded_css)
  else st.

(** Lines 56-93: one turn of the loop over [files]. *)
Definition file_step (root : string) (st : scan) (file : string) : scan :=
  let file_path := abspath (PosixPath.join root file) in
  if Str.mem file_path exclude_files then st
  else if (Str.endswith file ".ts" || Str.endswith file ".tsx")
          && negb (Str.contains "test" root)
  then match read_text os file_path with
       | inl content => analyze file_path st content
       | inr e => print st (read_error_line file_path e)
       end
  else st.

(** Lines 51-93: one turn of the loop over [os.walk(directory)]. *)
Definition dir_step (st : scan) (entry : string * list string * list string)
  : scan :=
  let '(root, _, files) := entry in
  if existsb (fun exclude_dir => Str.startswith root exclude_dir)
             exclude_directories
  then st
  else fold_left (file_step root) files st.

Definition scan_walk (entries : list (string * list string * list string))
           (st : scan) : scan :=
  fold_left dir_step entries st.

End Scanner.

Definition empty_scan : scan := mkScan [] [] [] [].

(** Line 95: the value returned. *)
Definition results (st : scan) : CSSCheckResult :=
  mkCSSCheckResult (loc_violations st) (loc_correct_css_imports st)
                   (loc_embedded_css_violations st).

(** [check_files], returning with the result what it printed.  The two
    exclusion sets are kept as lists: the script only tests membership in
    them and whether any member is a prefix. *)
Definition check_files (os : OS) (directory : string)
           (exclude_files exclude_directories allowed_css_patterns : list string)
  : list string * CSSCheckResult :=
  let exclude_files := map (abspath os) exclude_files in
  let exclude_directories := map (abspath os) exclude_directories in
  let st := scan_walk os directory exclude_files exclude_directories
                      allowed_css_patterns (walk os directory) empty_scan in
  (printed st, results st).

(** ** [main] *)

(** The parsed command line. *)
Record Args : Type :=
  mkArgs {
      directory : string;
      exclude_files : list string;
      exclude_directories : list string;
      allowed_css_patterns : list string;
      show_success : bool }.

(** The defaults of the optional arguments. *)
Definition default_args (directory : string) : Args :=
  mkArgs directory [] [] ["app.module.css"] false.

Definition remediation : string :=
"
Please address the above CSS violations:
1. For invalid CSS imports, ensure you're using the correct import syntax and file paths.
2. For embedded CSS, move the CSS to appropriate stylesheet files and import them correctly.
3. Make sure to use only the allowed CSS patterns as specified in the script arguments.
4. Check that all imported CSS files exist in the specified locations.
".

(** The three f-strings of the report. *)
Definition format_violation (violation : Violation) : string :=
  "- " ++ v_file_path violation ++ ": " ++ v_css_file violation
       ++ " (" ++ v_reason violation ++ ")".

Definition format_embedded (violation : EmbeddedViolation) : string :=
  "- " ++ e_file_path violation ++ ": " ++ Str.join ", " (e_css_codes violation).

Definition format_import (import_ : CorrectImport) : string :=
  "- " ++ c_file_path import_ ++ ": " ++ c_css_file import_.

Definition embedded_header : string := Str.nl ++ "Embedded CSS Violations:".
Definition success_header : string := Str.nl ++ "Correct CSS Imports:".

(** Lines 135-147: the report lines and the exit code. *)
Definition report_violations (result : CSSCheckResult) : list string * Z :=
  let output : list string := [] in
  let exit_code := 0%Z in
  let '(output, exit_code) :=
    if truthy (violations result)
    then (output ++ ["CSS Import Violations:"]
                 ++ map format_violation (violations result),
          1%Z)
    else (output, exit_code) in
  if truthy (embedded_violations result)
  then (output ++ [embedded_header]
               ++ map format_embedded (embedded_violations result),
        1%Z)
  else (output, exit_code).

(** Lines 135-163: what [main] prints after the scan, and the exit code it
    passes to [sys.exit]. *)
Definition report (show_success : bool) (result : CSSCheckResult)
  : list string * Z :=
  let '(output, exit_code) := report_violations result in
  let out1 :=
    if truthy output then [Str.join Str.nl output; remediation] else [] in
  let out2 :=
    if show_success && truthy (correct_imports result)
    then success_header :: map format_import (correct_imports result)
    else [] in
  (out1 ++ out2, exit_code).

(** [main] on parsed arguments: everything printed, and the exit code. *)
Definition main (os : OS) (args : Args) : list string * Z :=
  let '(out0, result) :=
    check_files os (directory args) (exclude_files args)
                (exclude_directories args) (allowed_css_patterns args) in
  let '(out1, exit_code) := report (show_success args) result in
  (out0 ++ out1, exit_code).

(** ** A POSIX directory tree as the operating system

    Directories and regular files, no symbolic links.  A directory that
    cannot be listed makes [os.scandir] fail; a file that cannot be read (or
    is not valid UTF-8) carries the message of the error [open] or [read]
    raises. *)

Module TreeFS.

#[local] Set Warnings "-register-all".

Inductive node : Type :=
| File (data : string + string)
| Dir (listable : bool) (entries : list (string * node)).

Fixpoint find_entry (name : string) (entries : list (string * node))
  : option node :=
  match entries with
  | [] => None
  | (n, x) :: r => if String.eqb n name then Some x else find_entry name r
  end.

(** Path resolution, one component at a time.  [up] holds the directories
    entered on the way to [cur], innermost first; [..] at the root stays at
    the root; every component, even an empty one or [.], needs [cur] to be
    a directory. *)
Fixpoint resolve (up : list node) (cur : node) (comps : list string)
  : option node :=
  match comps with
  | [] => Some cur
  | c :: r =>
      match cur with
      | File _ => None
      | Dir _ entries =>
          if String.eqb c "" || String.eqb c "." then resolve up cur r
          else if String.eqb c ".." then
                 match up with
                 | [] => resolve [] cur r
                 | p :: up' => resolve up' p r
                 end
          else match find_entry c entries with
               | Some x => resolve (cur :: up) x r
               | None => None
               end
      end
  end.

Definition lookup (fs : node) (cwd path : string) : option node :=
  if String.eqb path "" then None
  else resolve [] fs
               (Str.split "/" (if PosixPath.isabs path then path
                               else cwd ++ "/" ++ path)).

(** [top] can be listed: it names a directory that [os.scandir] opens. *)
Definition traversable (fs : node) (cwd top : string) : bool :=
  match lookup fs cwd top with
  | Some (Dir true _) => true
  | _ => false
  end.

Definition is_dir (x : string * node) : bool :=
  match snd x with Dir _ _ => true | File _ => false end.

Definition dir_names (entries : list (string * node)) : list string :=
  map fst (filter is_dir entries).

Definition file_names (entries : list (string * node)) : list string :=
  map fst (filter (fun x => negb (is_dir x)) entries).

(** [os.walk(top)] with its defaults (top-down, [onerror=None]): a
    directory that cannot be listed yields nothing and no error is raised;
    otherwise its triple is yielded, then the walks of its subdirectories
    under [join(top, name)], in order. *)
Fixpoint walk_node (top : string) (n : node)
  : list (string * list string * list string) :=
  match n with
  | File _ => []
  | Dir false _ => []
  | Dir true entries =>
      (top, dir_names entries, file_names entries)
        :: (fix subdirs (es : list (string * node)) :=
              match es with
              | [] => []
              | (name, x) :: r =>
                  match x with
                  | Dir _ _ => walk_node (PosixPath.join top name) x ++ subdirs r
                  | File _ => subdirs r
                  end
              end) entries
  end.

(** The messages of [IsADirectoryError] and [FileNotFoundError]. *)
Definition is_a_directory (p : string) : string :=
  "[Errno 21] Is a directory: '" ++ p ++ "'".

Definition no_such_file (p : string) : string :=
  "[Errno 2] No such file or directory: '" ++ p ++ "'".

Definition os (fs : node) (cwd : string) : OS :=
  {| getcwd := cwd;
     path_exists := fun p =>
       match lookup fs cwd p with Some _ => true | None => false end;
     walk := fun top =>
       match lookup fs cwd top with
       | Some n => walk_node top n
       | None => []
       end;
     read_text := fun p =>
       match lookup fs cwd p with
       | Some (File data) => data
       | Some (Dir _ _) => inr (is_a_directory p)
       | None => inr (no_such_file p)
       end |}.

End TreeFS.

(** ** A small repository to run the script on *)

Module Sample.

Import TreeFS.

Definition text (s : string) : node := File (inl s).

Definition app_test_tsx : string :=
  "import './styles/app.module.css';
import './missing.css';
import './legacy.css';
const shade = '#1A2b3C';".

Definition widget_tsx : string := "const border = '#abc';".

Definition denied : string :=
  "[Errno 13] Permission denied: '/repo/src/secret.ts'".

(** [/repo/src] with a stylesheet directory, a directory named [test], a
    directory to exclude and a file that cannot be read. *)
Definition src : node :=
  Dir true
      [ ("App.test.tsx", text app_test_tsx);
        ("legacy.css", text "");
        ("secret.ts", File (inr denied));
        ("styles", Dir true [ ("app.module.css", text "") ]);
        ("test", Dir true [ ("Widget.tsx", text widget_tsx) ]);
        ("skip", Dir true [ ("a.tsx", text "color: #fff;") ]);
        ("zeta.ts", text "color: #1A2b3C;") ].

(** [/repo/vault] cannot be listed. *)
Definition vault : node := Dir false [ ("key.ts", text "color: #fff;") ].

Definition root : node :=
  Dir true [ ("repo", Dir true [ ("src", src); ("vault", vault) ]) ].

(** The script run from [/repo]. *)
Definition os : OS := TreeFS.os root "/repo".

End Sample.

(** ** Colour literals, described without the pattern

    A literal starts at a [#] that at least three hexadecimal digits follow;
    it takes six digits when six follow and three otherwise.  Literals are
    found from left to right, the search resuming after the previous one. *)

Module ColorLiteral.

(** [s] starts with [n] hexadecimal digits. *)
Fixpoint hex_run (n : nat) (s : string) : bool :=
  match n with
  | 0 => true
  | S k =>
      match s with
      | String c t => Re.hex_digit c && hex_run k t
      | EmptyString => false
      end
  end.

(** The length of the literal that starts [s], if one does. *)
Definition literal_length (s : string) : option nat :=
  match s with
  | String c t =>
      if Ascii.eqb c "#"
      then if hex_run 6 t then Some 7
           else if hex_run 3 t then Some 4
           else None
      else None
  | EmptyString => None
  end.

Fixpoint spans_from (pos skip : nat) (s : string) : list (nat * nat) :=
  match s with
  | EmptyString => []
  | String _ t =>
      match skip with
      | S k => spans_from (S pos) k t
      | 0 =>
          match literal_length s with
          | Some len => (pos, pos + len) :: spans_from (S pos) (pred len) t
          | None => spans_from (S pos) 0 t
          end
      end
  end.

(** The [(start, end)] offsets of the literals of [s]. *)
Definition spans (s : string) : list (nat * nat) := spans_from 0 0 s.

End ColorLiteral.

Definition span (m : Re.match_obj) : nat * nat := (Re.m_start m, Re.m_end m).

(** The two places an imported stylesheet is looked for (lines 75-79). *)
Definition candidate_exists (os : OS) (directory file_path css_file : string)
  : bool :=
  path_exists os (PosixPath.join (PosixPath.dirname file_path) css_file)
  || path_exists os (PosixPath.join (abspath os directory) css_file).

Definition suffix_allowed (allowed_css_patterns : list string)
           (css_file : string) : bool :=
  existsb (fun pattern => Str.endswith css_file pattern) allowed_css_patterns.


(** ** Notions used to state what a scan reports *)

(** Two states side by side: the lists of [b] after those of [a]. *)
Definition scan_app (a b : scan) : scan :=
  mkScan (loc_violations a ++ loc_violations b)
         (loc_correct_css_imports a ++ loc_correct_css_imports b)
         (loc_embedded_css_violations a ++ loc_embedded_css_violations b)
         (printed a ++ printed b).

(** The file [file_path], with text [content], is one the scan of [entries]
    reads: it is listed in a walked directory that is not excluded and whose
    path has no [test], it has one of the two suffixes, it is not excluded,
    and reading it gives [content]. *)
Definition analyzed (os : OS) (exclude_files exclude_directories : list string)
           (entries : list (string * list string * list string))
           (file_path content : string) : Prop :=
  exists root dirs files file,
    In (root, dirs, files) entries
    /\ In file files
    /\ file_path = abspath os (PosixPath.join root file)
    /\ existsb (fun exclude_dir => Str.startswith root exclude_dir)
               exclude_directories = false
    /\ Str.mem file_path exclude_files = false
    /\ Str.endswith file ".ts" || Str.endswith file ".tsx" = true
    /\ Str.contains "test" root = false
    /\ read_text os file_path = inl content.

(** The first [n] characters of [s] exist and are in the class [p]. *)
Fixpoint class_run (p : ascii -> bool) (n : nat) (s : string) : bool :=
  match n with
  | 0 => true
  | S k =>
      match s with
      | String c t => p c && class_run p k t
      | EmptyString => false
      end
  end.

Fixpoint all_chars (p : ascii -> bool) (s : string) : bool :=
  match s with
  | EmptyString => true
  | String c t => p c && all_chars p t
  end.

(** Spans that follow one another from [lo] on without overlap, each of
    length 4 or 7 and none past [hi]. *)
Fixpoint spans_chain (lo hi : nat) (l : list (nat * nat)) : Prop :=
  match l with
  | [] => True
  | (a, b) :: r =>
      lo <= a /\ (b = a + 4 \/ b = a + 7) /\ b <= hi /\ spans_chain b hi r
  end.

(** Entry names as a directory has them: not empty and without a slash,
    throughout the tree. *)
Definition name_ok (name : string) : bool :=
  negb (String.eqb name "") && negb (Str.contains "/" name).

Fixpoint names_ok (n : TreeFS.node) : bool :=
  match n with
  | TreeFS.File _ => true
  | TreeFS.Dir _ entries =>
      (fix all (es : list (string * TreeFS.node)) : bool :=
         match es with
         | [] => true
         | (name, x) :: r => name_ok name && names_ok x && all r
         end) entries
  end.

(** The operating system [os] with its walk replaced. *)
Definition with_walk (os : OS)
           (w : string -> list (string * list string * list string)) : OS :=
  {| getcwd := getcwd os;
     path_exists := path_exists os;
     walk := w;
     read_text := read_text os |}.

(** Every entry of the three lists names a file the scan read, with a
    reference extracted from its text, or with the tokens of its text. *)
Definition entries_sourced (os : OS)
           (exclude_files exclude_directories : list string)
           (entries : list (string * list string * list string))
           (st : scan) : Prop :=
  (forall v, In v (loc_violations st) ->
     exists content,
       analyzed os exclude_files exclude_directories entries
                (v_file_path v) content
       /\ In (v_css_file v) (Re.findall css_import_pattern content))
  /\ (forall c, In c (loc_correct_css_imports st) ->
        exists content,
          analyzed os exclude_files exclude_directories entries
                   (c_file_path c) content
          /\ In (c_css_file c) (Re.findall css_import_pattern content))
  /\ (forall e, In e (loc_embedded_css_violations st) ->
        exists content,
          analyzed os exclude_files exclude_directories entries
                   (e_file_path e) content
          /\ e_css_codes e = check_embedded_css content
          /\ e_css_codes e <> []).

(** Induction on a directory tree, with the property known of every entry
    of a directory. *)
Fixpoint node_induction (P : TreeFS.node -> Prop)
         (HF : forall data, P (TreeFS.File data))
         (HD : forall listable entries,
             Forall (fun x => P (snd x)) entries ->
             P (TreeFS.Dir listable entries))
         (n : TreeFS.node) : P n :=
  match n with
  | TreeFS.File data => HF data
  | TreeFS.Dir listable entries =>
      HD listable entries
         ((fix all (es : list (string * TreeFS.node))
             : Forall (fun x => P (snd x)) es :=
             match es with
             | [] => Forall_nil _
             | (name, x) :: r =>
                 Forall_cons (name, x) (node_induction P HF HD x) (all r)
             end) entries)
  end.

(** ** Notions used to state what a scan produces *)

(** The state [big] holds every entry of the three lists of [small]. *)
Definition scan_includes (big small : scan) : Prop :=
  incl (loc_violations small) (loc_violations big)
  /\ incl (loc_correct_css_imports small) (loc_correct_css_imports big)
  /\ incl (loc_embedded_css_violations small)
          (loc_embedded_css_violations big).

(** The violation, if any, that the reference [css_file] of [file_path]
    stands for: none when a candidate exists and the suffix is allowed. *)
Definition violation_of (os : OS) (directory : string)
           (allowed_css_patterns : list string) (file_path css_file : string)
  : list Violation :=
  if candidate_exists os directory file_path css_file
  then if suffix_allowed allowed_css_patterns css_file
       then []
       else [mkViolation file_path css_file "Invalid import"]
  else [mkViolation file_path css_file "File not found"].

(** The correct import, if any, that the reference stands for. *)
Definition correct_import_of (os : OS) (directory : string)
           (allowed_css_patterns : list string) (file_path css_file : string)
  : list CorrectImport :=
  if candidate_exists os directory file_path css_file
     && suffix_allowed allowed_css_patterns css_file
  then [mkCorrectImport file_path css_file]
  else [].

(** The three characters of [content] that end the span [sp]. *)
Definition last_three (content : string) (sp : nat * nat) : string :=
  Str.take 3 (Str.drop (snd sp - 3) content).

(** The file [file] of the directory [root] is not named, once both are made
    absolute, by an entry of [exclude_files] as given on the command line. *)
Definition not_excluded (os : OS) (exclude_files : list string)
           (root file : string) : bool :=
  negb (existsb
          (fun entry =>
             String.eqb (abspath os (PosixPath.join root file))
                        (abspath os entry))
          exclude_files).

(** A walk with the excluded files taken out of the listings. *)
Definition without_excluded_files (os : OS) (exclude_files : list string)
           (entries : list (string * list string * list string))
  : list (string * list string * list string) :=
  map (fun entry =>
         (fst (fst entry), snd (fst entry),
          filter (not_excluded os exclude_files (fst (fst entry)))
                 (snd entry)))
      entries.

(** * Properties *)

(** ** The matcher on the colour pattern *)

Lemma rep_loop_hex (greedy : bool) (n : nat) :
  forall s g k,
    Re.rep_loop (Re.run (Re.Cls Re.hex_digit)) greedy n n s g k
    = if ColorLiteral.hex_run n s then k (Str.drop n s) g else None.
Proof.
  induction n as [|n IH]; intros s g k.
  - destruct greedy; cbn; [reflexivity|destruct (k s g); reflexivity].
  - assert (E : Re.rep_loop (Re.run (Re.Cls Re.hex_digit)) greedy (S n) (S n) s g k
                = Re.run (Re.Cls Re.hex_digit) s g
                    (fun s1 g1 =>
                       Re.rep_loop (Re.run (Re.Cls Re.hex_digit)) greedy n n s1 g1 k)).
    { destruct greedy; cbn [Re.rep_loop pred];
        [match goal with |- match ?x with _ => _ end = _ => destruct x end|];
        reflexivity. }
    rewrite E. destruct s as [|c t]; [reflexivity|].
    cbn [Re.run ColorLiteral.hex_run Str.drop].
    destruct (Re.hex_digit c); [apply IH|reflexivity].
Qed.

Lemma drop_length (n : nat) :
  forall s, String.length (Str.drop n s) <= String.length s.
Proof.
  induction n as [|n IH]; intros [|c t]; cbn; try lia.
  specialize (IH t). lia.
Qed.

Lemma hex_run_length (n : nat) :
  forall s, ColorLiteral.hex_run n s = true ->
            String.length s - String.length (Str.drop n s) = n.
Proof.
  induction n as [|n IH]; intros s H.
  - cbn. lia.
  - destruct s as [|c t]; [discriminate|].
    cbn in H. apply andb_prop in H. destruct H as [_ H].
    specialize (IH t H). cbn [Str.drop String.length].
    pose proof (drop_length n t). lia.
Qed.

Lemma hex_run_split (n m : nat) :
  forall s, ColorLiteral.hex_run (n + m) s
            = ColorLiteral.hex_run n s && ColorLiteral.hex_run m (Str.drop n s).
Proof.
  induction n as [|n IH]; intros s; [reflexivity|].
  destruct s as [|c t]; [reflexivity|].
  cbn [Nat.add ColorLiteral.hex_run Str.drop].
  rewrite IH. apply andb_assoc.
Qed.

Lemma drop_drop (n m : nat) :
  forall s, Str.drop m (Str.drop n s) = Str.drop (n + m) s.
Proof.
  induction n as [|n IH]; intros s; [reflexivity|].
  destruct s as [|c t]; [destruct m; reflexivity|]. apply IH.
Qed.

Lemma run_cat (r1 r2 : Re.regex) (s : string) (g : option string) (k : Re.cont) :
  Re.run (Re.Cat r1 r2) s g k = Re.run r1 s g (fun s1 g1 => Re.run r2 s1 g1 k).
Proof. reflexivity. Qed.

Lemma run_chr (c : ascii) (s : string) (g : option string) (k : Re.cont) :
  Re.run (Re.Chr c) s g k
  = match s with
    | String a t => if Ascii.eqb a c then k t g else None
    | EmptyString => None
    end.
Proof. reflexivity. Qed.

Lemma run_repeat (greedy : bool) (lo : nat) (hi : option nat) (r : Re.regex)
      (s : string) (g : option string) (k : Re.cont) :
  Re.run (Re.Repeat greedy lo hi r) s g k
  = Re.rep_loop (Re.run r) greedy
                (match hi with Some h => h | None => String.length s end)
                lo s g k.
Proof. reflexivity. Qed.

(** Three hexadecimal digits as a group, tried at [s]. *)
Lemma run_hex_group (s : string) (g : option string) (k : Re.cont) :
  Re.run (Re.Grp (Re.Repeat true 3 (Some 3) (Re.Cls Re.hex_digit))) s g k
  = if ColorLiteral.hex_run 3 s
    then k (Str.drop 3 s) (Some (Str.take 3 s))
    else None.
Proof.
  cbn [Re.run]. rewrite rep_loop_hex.
  destruct (ColorLiteral.hex_run 3 s) eqn:H; [|reflexivity].
  rewrite (hex_run_length 3 s H). reflexivity.
Qed.

(** The anchored match of the colour pattern. *)
Lemma match_at_embedded_css_pattern (s : string) :
  Re.match_at embedded_css_pattern s
  = match s with
    | String c t =>
        if Ascii.eqb c "#"
        then if ColorLiteral.hex_run 6 t
             then Some (7, Some (Str.take 3 (Str.drop 3 t)))
             else if ColorLiteral.hex_run 3 t
                  then Some (4, Some (Str.take 3 t))
                  else None
        else None
    | EmptyString => None
    end.
Proof.
  unfold Re.match_at, embedded_css_pattern.
  destruct s as [|c t]; [reflexivity|].
  rewrite run_cat, run_chr. destruct (Ascii.eqb c "#"); [|reflexivity].
  rewrite run_repeat. cbn [Re.rep_loop pred].
  rewrite (hex_run_split 3 3 t : ColorLiteral.hex_run 6 t = _), run_hex_group.
  destruct (ColorLiteral.hex_run 3 t) eqn:H3; [|reflexivity].
  rewrite run_hex_group. cbn [andb].
  destruct (ColorLiteral.hex_run 3 (Str.drop 3 t)) eqn:H6.
  - rewrite drop_drop. cbn [Nat.add].
    assert (H : ColorLiteral.hex_run 6 t = true)
      by (rewrite (hex_run_split 3 3 t : ColorLiteral.hex_run 6 t = _), H3, H6;
          reflexivity).
    pose proof (hex_run_length 6 t H) as L.
    pose proof (drop_length 6 t) as B. cbn [String.length].
    replace (S (String.length t) - String.length (Str.drop 6 t)) with 7 by lia.
    reflexivity.
  - pose proof (hex_run_length 3 t H3) as L.
    pose proof (drop_length 3 t) as B. cbn [String.length].
    replace (S (String.length t) - String.length (Str.drop 3 t)) with 4 by lia.
    reflexivity.
Qed.

Lemma finditer_from_spans (s : string) :
  forall pos skip,
    map span (Re.finditer_from embedded_css_pattern pos skip s)
    = ColorLiteral.spans_from pos skip s.
Proof.
  induction s as [|c t IH]; intros pos skip.
  - destruct skip; reflexivity.
  - destruct skip as [|k]; [|apply IH].
    cbn [Re.finditer_from ColorLiteral.spans_from].
    rewrite match_at_embedded_css_pattern. cbn [ColorLiteral.literal_length].
    destruct (Ascii.eqb c "#"); [|apply IH].
    destruct (ColorLiteral.hex_run 6 t).
    + cbn [map]. rewrite IH. reflexivity.
    + destruct (ColorLiteral.hex_run 3 t); [|apply IH].
      cbn [map]. rewrite IH. reflexivity.
Qed.

(** ** Loops as folds *)

Lemma fold_left_invariant {A B : Type} (P : A -> Prop) (f : A -> B -> A) :
  (forall a b, P a -> P (f a b)) ->
  forall l a, P a -> P (fold_left f l a).
Proof.
  intros step l. induction l as [|b l IH]; intros a Ha; [exact Ha|].
  cbn. apply IH, step, Ha.
Qed.

Section ScannerFacts.

Variable os : OS.
Variables (dir : string) (excl_files excl_dirs allowed : list string).

Local Abbreviation import_step' := (import_step os dir allowed).
Local Abbreviation analyze' := (analyze os dir allowed).
Local Abbreviation file_step' := (file_step os dir excl_files allowed).
Local Abbreviation dir_step' := (dir_step os dir excl_files excl_dirs allowed).
Local Abbreviation scan_walk' := (scan_walk os dir excl_files excl_dirs allowed).

(** The branch taken for one import, read off the two candidates. *)
Lemma import_step_cases (file_path : string) (st : scan) (css_file : string) :
  import_step' file_path st css_file
  = if candidate_exists os dir file_path css_file
    then if suffix_allowed allowed css_file
         then add_correct_import st (mkCorrectImport file_path css_file)
         else add_violation st (mkViolation file_path css_file "Invalid import")
    else add_violation st (mkViolation file_path css_file "File not found").
Proof.
  unfold import_step, candidate_exists, suffix_allowed.
  destruct (path_exists os
              (PosixPath.join (PosixPath.dirname file_path) css_file)) eqn:near;
    cbn [negb orb]; [rewrite near; reflexivity|].
  destruct (path_exists os (PosixPath.join (abspath os dir) css_file));
    reflexivity.
Qed.

(** Whatever holds of the starting state and is kept by the three ways the
    scan changes its state holds when the scan is over. *)
Lemma scan_walk_invariant (P : scan -> Prop) :
  (forall file_path st css_file, P st -> P (import_step' file_path st css_file)) ->
  (forall st e, P st -> P (add_embedded_violation st e)) ->
  (forall st line, P st -> P (print st line)) ->
  forall entries st, P st -> P (scan_walk' entries st).
Proof.
  intros Himport Hembedded Hprint.
  apply fold_left_invariant. intros st [[root dirs] files] Hst.
  unfold dir_step.
  destruct (existsb _ excl_dirs); [exact Hst|].
  revert st Hst. apply fold_left_invariant. intros st file Hst.
  unfold file_step.
  destruct (Str.mem _ excl_files); [exact Hst|].
  destruct (_ && _); [|exact Hst].
  destruct (read_text os _) as [content|e]; [|apply Hprint, Hst].
  unfold analyze.
  destruct (truthy _); [apply Hembedded|];
    (revert st Hst; apply fold_left_invariant; intros st css_file Hst;
     apply Himport, Hst).
Qed.

(** A directory whose path contains [test] leaves the state as it is. *)
Lemma file_step_test (root file : string) (st : scan) :
  Str.contains "test" root = true -> file_step' root st file = st.
Proof.
  intros H. unfold file_step. rewrite H.
  destruct (Str.mem _ excl_files); [reflexivity|].
  rewrite andb_false_r. reflexivity.
Qed.

Lemma files_loop_test (root : string) (files : list string) :
  Str.contains "test" root = true ->
  forall st, fold_left (file_step' root) files st = st.
Proof.
  intros H. induction files as [|file files IH]; intros st; [reflexivity|].
  cbn. rewrite file_step_test by exact H. apply IH.
Qed.

Lemma dir_step_test (root : string) (dirs files : list string) (st : scan) :
  Str.contains "test" root = true -> dir_step' st (root, dirs, files) = st.
Proof.
  intros H. unfold dir_step.
  destruct (existsb _ excl_dirs); [reflexivity|].
  apply files_loop_test, H.
Qed.

Lemma scan_walk_without_test_dirs
      (entries : list (string * list string * list string)) :
  forall st,
    scan_walk' entries st
    = scan_walk'
        (filter (fun e => negb (Str.contains "test" (fst (fst e)))) entries) st.
Proof.
  induction entries as [|[[root dirs] files] entries IH]; intros st;
    [reflexivity|].
  cbn [filter fst]. destruct (Str.contains "test" root) eqn:H; cbn [negb].
  - unfold scan_walk. cbn [fold_left]. rewrite dir_step_test by exact H.
    apply IH.
  - unfold scan_walk. cbn [fold_left]. apply IH.
Qed.

End ScannerFacts.

(** ** Classification of imports *)


(** ** Files that are not analyzed *)

(** C7. Under a directory whose path, as the walk yields it, contains the
    text [test], no file changes the state of the scan: nothing is appended
    to any of the three lists and nothing is printed, whatever the file's
    name and content; the whole turn for such a directory leaves the state as
    it is, and a scan gives what it gives with these directories left out of
    the walk. *)
Theorem test_directories_are_never_analyzed
        (os : OS) (directory : string)
        (exclude_files exclude_directories allowed_css_patterns : list string) :
  (forall root,
      Str.contains "test" root = true ->
      (forall st file,
          file_step os directory exclude_files allowed_css_patterns root st file
          = st)
      /\ (forall st dirs files,
             dir_step os directory exclude_files exclude_directories
                      allowed_css_patterns st (root, dirs, files) = st))
  /\ (forall entries st,
         scan_walk os directory exclude_files exclude_directories
                   allowed_css_patterns entries st
         = scan_walk os directory exclude_files exclude_directories
                     allowed_css_patterns
                     (filter (fun e => negb (Str.contains "test" (fst (fst e))))
                             entries) st).
Proof.
  split.
  - intros root H. split.
    + intros st file. apply file_step_test, H.
    + intros st dirs files. apply dir_step_test, H.
  - intros entries st. apply scan_walk_without_test_dirs.
Qed.

(** C9. Only the directory is tested for [test]: a file whose own name
    contains [test], in a directory whose path does not, goes through the
    exclusion test, the suffix test and the reading like any other file; and
    the file [App.test.tsx] of the sample repository has entries in all three
    result lists. *)
Theorem test_in_file_name_is_not_filtered :
  (forall (os : OS) (directory : string)
          (exclude_files allowed_css_patterns : list string)
          (root file : string) (st : scan),
      Str.contains "test" file = true ->
      Str.contains "test" root = false ->
      file_step os directory exclude_files allowed_css_patterns root st file
      = let file_path := abspath os (PosixPath.join root file) in
        if Str.mem file_path exclude_files then st
        else if Str.endswith file ".ts" || Str.endswith file ".tsx"
             then match read_text os file_path with
                  | inl content =>
                      analyze os directory allowed_css_patterns file_path st content
                  | inr e => print st (read_error_line file_path e)
                  end
             else st)
  /\ (let result :=
        snd (check_files Sample.os "/repo/src" ["src/zeta.ts"] ["src/skip"]
                         ["app.module.css"]) in
      map v_file_path (violations result)
      = ["/repo/src/App.test.tsx"; "/repo/src/App.test.tsx"]
      /\ map c_file_path (correct_imports result) = ["/repo/src/App.test.tsx"]
      /\ map e_file_path (embedded_violations result)
         = ["/repo/src/App.test.tsx"]).
Proof.
  split.
  - intros os directory exclude_files allowed_css_patterns root file st _ H.
    unfold file_step. rewrite H. cbn [negb]. rewrite andb_true_r. reflexivity.
  - vm_compute. repeat split.
Qed.

(** ** Files that cannot be read *)





(** ** The exit code *)

Lemma report_violations_exit_code (result : CSSCheckResult) :
  snd (report_violations result)
  = if truthy (violations result) || truthy (embedded_violations result)
    then 1%Z else 0%Z.
Proof.
  unfold report_violations.
  destruct (truthy (violations result)), (truthy (embedded_violations result));
    reflexivity.
Qed.

Lemma report_exit_code (show_success : bool) (result : CSSCheckResult) :
  snd (report show_success result) = snd (report_violations result).
Proof.
  unfold report. destruct (report_violations result). reflexivity.
Qed.

Lemma main_exit_code (os : OS) (args : Args) :
  snd (main os args)
  = snd (report_violations
           (snd (check_files os (directory args) (exclude_files args)
                             (exclude_directories args)
                             (allowed_css_patterns args)))).
Proof.
  unfold main. destruct (check_files _ _ _ _ _) as [out0 result].
  cbn [snd]. rewrite <- (report_exit_code (show_success args)).
  destruct (report _ result). reflexivity.
Qed.

(** C3. The exit code is 0 exactly when the scan returned no import
    violation and no embedded violation, and 1 in every other case; the
    correct imports and the [--show_success] flag have no part in it. *)
Theorem exit_code_reflects_violations_only (os : OS) (args : Args) :
  let result := snd (check_files os (directory args) (exclude_files args)
                                 (exclude_directories args)
                                 (allowed_css_patterns args)) in
  let exit_code := snd (main os args) in
  (exit_code = 0%Z
   <-> violations result = [] /\ embedded_violations result = [])
  /\ (exit_code = 0%Z \/ exit_code = 1%Z)
  /\ (forall show_success' correct_imports',
         snd (report show_success'
                     (mkCSSCheckResult (violations result) correct_imports'
                                       (embedded_violations result)))
         = exit_code).
Proof.
  intros result exit_code. subst exit_code. rewrite main_exit_code.
  fold result. rewrite report_violations_exit_code.
  repeat split.
  - destruct (violations result); [|discriminate].
    reflexivity.
  - destruct (violations result); [|discriminate].
    destruct (embedded_violations result); [reflexivity|discriminate].
  - intros [-> ->]. reflexivity.
  - destruct (truthy _ || truthy _); auto.
  - intros show_success' correct_imports'.
    rewrite report_exit_code, report_violations_exit_code. reflexivity.
Qed.

(** ** A root that cannot be traversed *)

Lemma empty_walk_empty_report (os : OS) (args : Args) :
  walk os (directory args) = [] ->
  check_files os (directory args) (exclude_files args)
              (exclude_directories args) (allowed_css_patterns args)
  = ([], mkCSSCheckResult [] [] [])
  /\ main os args = ([], 0%Z).
Proof.
  intros H. unfold main, check_files. rewrite H. cbn.
  destruct (show_success args); split; reflexivity.
Qed.

Lemma untraversable_walk (fs : TreeFS.node) (cwd top : string) :
  TreeFS.traversable fs cwd top = false -> walk (TreeFS.os fs cwd) top = [].
Proof.
  unfold TreeFS.traversable. cbn [walk TreeFS.os].
  destruct (TreeFS.lookup fs cwd top) as [[data|[|] entries]|];
    [reflexivity|discriminate|reflexivity|reflexivity].
Qed.

(** C5, as the code has it.  When the root directory does not name a
    directory that can be listed, the walk yields nothing and no error is
    raised: the scan returns three empty lists without printing, and [main]
    prints nothing and exits with code 0. *)
Theorem untraversable_root_gives_empty_report
        (fs : TreeFS.node) (cwd : string) (args : Args) :
  TreeFS.traversable fs cwd (directory args) = false ->
  walk (TreeFS.os fs cwd) (directory args) = []
  /\ check_files (TreeFS.os fs cwd) (directory args) (exclude_files args)
                 (exclude_directories args) (allowed_css_patterns args)
     = ([], mkCSSCheckResult [] [] [])
  /\ main (TreeFS.os fs cwd) args = ([], 0%Z).
Proof.
  intros H. apply untraversable_walk in H. split; [exact H|].
  apply empty_walk_empty_report, H.
Qed.

(** C5 fails as stated: the sample repository has no directory [nowhere],
    and the run on it ends with nothing printed and exit code 0. *)
Lemma missing_root_exits_zero :
  TreeFS.traversable Sample.root "/repo" "nowhere" = false
  /\ main Sample.os (default_args "nowhere") = ([], 0%Z).
Proof. split; reflexivity. Qed.

Lemma untraversable_root_gives_empty_report_witness :
  TreeFS.traversable Sample.root "/repo" "/repo/vault" = false
  /\ main (TreeFS.os Sample.root "/repo") (default_args "/repo/vault")
     = ([], 0%Z).
Proof.
  split; [reflexivity|].
  apply (untraversable_root_gives_empty_report
           Sample.root "/repo" (default_args "/repo/vault")).
  reflexivity.
Defined.

(** ** The colour pattern *)

(** C6, as the code has it.  The matches of the detector are the colour
    literals of the text: a match starts at each [#] that at least three
    hexadecimal digits follow (of either case), covers six digits when six
    follow and three otherwise, and the search goes from left to right
    without overlap; so a [#] with four or five digits after it is matched on
    its first three.  The detector returns one token for each match. *)
Theorem embedded_css_matches_are_color_literals (content : string) :
  map span (Re.finditer embedded_css_pattern content)
  = ColorLiteral.spans content
  /\ length (check_embedded_css content) = length (ColorLiteral.spans content).
Proof.
  assert (E : map span (Re.finditer embedded_css_pattern content)
              = ColorLiteral.spans content)
    by apply finditer_from_spans.
  split; [exact E|].
  unfold check_embedded_css, Re.findall. rewrite <- E, !length_map.
  reflexivity.
Qed.

(** C6 fails as stated: a [#] followed by four or by five hexadecimal digits
    is matched. *)
Lemma four_or_five_digits_match :
  check_embedded_css "#1234" = ["123"]
  /\ check_embedded_css "#12345;" = ["123"]
  /\ map span (Re.finditer embedded_css_pattern "#1234") = [(0, 4)].
Proof. repeat split. Qed.

(** Whether a file gets an entry in the third list: exactly when its text
    has a colour literal. *)
Lemma analyze_embedded (os : OS) (directory : string)
      (allowed_css_patterns : list string) (file_path : string) (st : scan)
      (content : string) :
  loc_embedded_css_violations
    (analyze os directory allowed_css_patterns file_path st content)
  = loc_embedded_css_violations st
      ++ (if truthy (ColorLiteral.spans content)
          then [mkEmbeddedViolation file_path (check_embedded_css content)]
          else []).
Proof.
  unfold analyze.
  assert (F : loc_embedded_css_violations
                (fold_left (import_step os directory allowed_css_patterns file_path)
                           (Re.findall css_import_pattern content) st)
              = loc_embedded_css_violations st).
  { apply (fold_left_invariant
             (fun a => loc_embedded_css_violations a
                       = loc_embedded_css_violations st)); [|reflexivity].
    intros a css_file H. rewrite import_step_cases.
    destruct (candidate_exists _ _ _ _);
      [destruct (suffix_allowed _ _)|]; exact H. }
  assert (L : length (check_embedded_css content)
              = length (ColorLiteral.spans content)).
  { unfold check_embedded_css, Re.findall, Re.finditer, ColorLiteral.spans.
    rewrite <- finditer_from_spans, !length_map. reflexivity. }
  destruct (check_embedded_css content) as [|tok toks] eqn:C;
    destruct (ColorLiteral.spans content) as [|sp sps];
    cbn in L; try discriminate L; cbn [truthy].
  - rewrite F, app_nil_r. reflexivity.
  - cbn [add_embedded_violation loc_embedded_css_violations]. rewrite F.
    reflexivity.
Qed.

(** ** Two runs where the code departs from its own intent *)

(** C2, at the failing input.  For the text [color: #1A2b3C;] the detector
    returns the token [b3C], the last three digits of the literal, and the
    scan of a file with this text records that token. *)
Theorem six_digit_literal_is_reported_by_its_last_three_digits :
  check_embedded_css "color: #1A2b3C;" = ["b3C"]
  /\ embedded_violations
       (snd (check_files Sample.os "/repo/src" ["/repo/src/App.test.tsx"]
                         ["/repo/src/skip"] ["app.module.css"]))
     = [mkEmbeddedViolation "/repo/src/zeta.ts" ["b3C"]].
Proof. split; reflexivity. Qed.

(** C4, at the failing input.  Run from [/repo] on the relative root [src]
    with [src/skip] excluded, the scan still analyzes [src/skip/a.tsx]: the
    excluded directory is made absolute, the walked directory is not.  The
    same run on the absolute root [/repo/src] skips it, and the excluded
    files, compared in absolute form on both sides, are skipped in both. *)
Theorem relative_root_defeats_directory_exclusion :
  embedded_violations
    (snd (check_files Sample.os "src" ["src/zeta.ts"; "src/App.test.tsx"]
                      ["src/skip"] ["app.module.css"]))
  = [mkEmbeddedViolation "/repo/src/skip/a.tsx" ["fff"]]
  /\ embedded_violations
       (snd (check_files Sample.os "/repo/src"
                         ["src/zeta.ts"; "src/App.test.tsx"]
                         ["src/skip"] ["app.module.css"]))
     = [].
Proof. split; reflexivity. Qed.

(** ** The theorems at the sample repository *)

Lemma test_directories_are_never_analyzed_witness :
  Str.contains "test" "/repo/src/test" = true
  /\ file_step Sample.os "/repo/src" [] ["app.module.css"] "/repo/src/test"
               empty_scan "Widget.tsx"
     = empty_scan.
Proof.
  split; [reflexivity|].
  apply (proj1 (test_directories_are_never_analyzed
                  Sample.os "/repo/src" [] [] ["app.module.css"])
               "/repo/src/test").
  reflexivity.
Defined.

Lemma test_in_file_name_is_not_filtered_witness :
  Str.contains "test" "App.test.tsx" = true
  /\ Str.contains "test" "/repo/src" = false
  /\ file_step Sample.os "/repo/src" [] ["app.module.css"] "/repo/src"
               empty_scan "App.test.tsx"
     = analyze Sample.os "/repo/src" ["app.module.css"]
               "/repo/src/App.test.tsx" empty_scan Sample.app_test_tsx.
Proof.
  split; [reflexivity|]. split; [reflexivity|].
  rewrite (proj1 test_in_file_name_is_not_filtered
                 Sample.os "/repo/src" [] ["app.module.css"] "/repo/src"
                 "App.test.tsx" empty_scan);
    reflexivity.
Defined.


(** * Further properties of the scan *)

(** ** A scan is the concatenation of the scans of its parts *)

Lemma scan_app_empty_r (a : scan) : scan_app a empty_scan = a.
Proof. destruct a. unfold scan_app. cbn. rewrite !app_nil_r. reflexivity. Qed.

Lemma scan_app_empty_l (a : scan) : scan_app empty_scan a = a.
Proof. destruct a. reflexivity. Qed.

Lemma scan_app_assoc (a b c : scan) :
  scan_app (scan_app a b) c = scan_app a (scan_app b c).
Proof. unfold scan_app. cbn. rewrite <- !app_assoc. reflexivity. Qed.

(** A loop whose turns only append appends what it would append to the empty
    state. *)
Lemma fold_left_appends {B : Type} (f : scan -> B -> scan) :
  (forall st b, f st b = scan_app st (f empty_scan b)) ->
  forall l st, fold_left f l st = scan_app st (fold_left f l empty_scan).
Proof.
  intros H l. induction l as [|b l IH]; intros st.
  - cbn. symmetry. apply scan_app_empty_r.
  - cbn [fold_left]. rewrite IH, (IH (f empty_scan b)), (H st b).
    apply scan_app_assoc.
Qed.

Section Appending.

Variable os : OS.
Variables (dir : string) (excl_files excl_dirs allowed : list string).

Lemma import_step_appends (file_path : string) (st : scan) (css_file : string) :
  import_step os dir allowed file_path st css_file
  = scan_app st (import_step os dir allowed file_path empty_scan css_file).
Proof.
  rewrite !import_step_cases.
  destruct (candidate_exists _ _ _ _); [destruct (suffix_allowed _ _)|];
    destruct st; unfold scan_app, add_violation, add_correct_import; cbn;
    rewrite !app_nil_r; reflexivity.
Qed.

Lemma analyze_appends (file_path : string) (st : scan) (content : string) :
  analyze os dir allowed file_path st content
  = scan_app st (analyze os dir allowed file_path empty_scan content).
Proof.
  unfold analyze.
  rewrite (fold_left_appends _ (import_step_appends file_path)).
  destruct (truthy _); [|reflexivity].
  generalize (fold_left (import_step os dir allowed file_path)
                        (Re.findall css_import_pattern content) empty_scan).
  intros d. destruct st, d. unfold scan_app, add_embedded_violation. cbn.
  rewrite <- app_assoc. reflexivity.
Qed.

Lemma file_step_appends (root : string) (st : scan) (file : string) :
  file_step os dir excl_files allowed root st file
  = scan_app st (file_step os dir excl_files allowed root empty_scan file).
Proof.
  unfold file_step.
  destruct (Str.mem _ excl_files); [symmetry; apply scan_app_empty_r|].
  destruct (_ && _); [|symmetry; apply scan_app_empty_r].
  destruct (read_text os _) as [content|e]; [apply analyze_appends|].
  destruct st. unfold scan_app, print. cbn. rewrite !app_nil_r. reflexivity.
Qed.

Lemma dir_step_appends (st : scan) (entry : string * list string * list string) :
  dir_step os dir excl_files excl_dirs allowed st entry
  = scan_app st (dir_step os dir excl_files excl_dirs allowed empty_scan entry).
Proof.
  destruct entry as [[root dirs] files]. unfold dir_step.
  destruct (existsb _ excl_dirs); [symmetry; apply scan_app_empty_r|].
  apply fold_left_appends, file_step_appends.
Qed.

Lemma scan_walk_cons (entry : string * list string * list string)
      (entries : list (string * list string * list string)) :
  scan_walk os dir excl_files excl_dirs allowed (entry :: entries) empty_scan
  = scan_app (dir_step os dir excl_files excl_dirs allowed empty_scan entry)
             (scan_walk os dir excl_files excl_dirs allowed entries empty_scan).
Proof.
  unfold scan_walk. cbn [fold_left].
  apply (fold_left_appends _ dir_step_appends).
Qed.

End Appending.

(** X1. Scanning the directories of a walk one part after the other gives
    the two scans' lists and printed lines, the first part's before the
    second's: no turn of the scan reads or changes what earlier turns
    recorded. *)
Theorem scan_of_parts_concatenates
        (os : OS) (directory : string)
        (exclude_files exclude_directories allowed_css_patterns : list string)
        (entries1 entries2 : list (string * list string * list string))
        (st : scan) :
  scan_walk os directory exclude_files exclude_directories
            allowed_css_patterns (entries1 ++ entries2) st
  = scan_app
      (scan_walk os directory exclude_files exclude_directories
                 allowed_css_patterns entries1 st)
      (scan_walk os directory exclude_files exclude_directories
                 allowed_css_patterns entries2 empty_scan).
Proof.
  unfold scan_walk. rewrite fold_left_app.
  apply (fold_left_appends _ (dir_step_appends os directory exclude_files
                                exclude_directories allowed_css_patterns)).
Qed.

Lemma scan_walk_permutation
      (os : OS) (directory : string)
      (exclude_files exclude_directories allowed_css_patterns : list string)
      (entries entries' : list (string * list string * list string)) :
  Permutation entries entries' ->
  let st := scan_walk os directory exclude_files exclude_directories
                      allowed_css_patterns entries empty_scan in
  let st' := scan_walk os directory exclude_files exclude_directories
                       allowed_css_patterns entries' empty_scan in
  Permutation (loc_violations st) (loc_violations st')
  /\ Permutation (loc_correct_css_imports st) (loc_correct_css_imports st')
  /\ Permutation (loc_embedded_css_violations st)
                 (loc_embedded_css_violations st')
  /\ Permutation (printed st) (printed st').
Proof.
  intros H. cbv zeta.
  induction H as [|x l l' H IH|x y l|l l' l'' H1 IH1 H2 IH2].
  - repeat split; apply Permutation_refl.
  - rewrite !scan_walk_cons. cbn [scan_app loc_violations
      loc_correct_css_imports loc_embedded_css_violations printed].
    destruct IH as (A & B & C & D).
    repeat split; apply Permutation_app_head; assumption.
  - rewrite !scan_walk_cons. cbn [scan_app loc_violations
      loc_correct_css_imports loc_embedded_css_violations printed].
    rewrite !app_assoc.
    repeat split; apply Permutation_app_tail, Permutation_app_comm.
  - destruct IH1 as (A & B & C & D), IH2 as (A' & B' & C' & D').
    repeat split; eapply Permutation_trans; eassumption.
Qed.

(** X2. The order in which the directories are walked only reorders the
    result: for two operating systems that differ only in the order of the
    walk of the root, each of the three result lists of one scan is a
    permutation of the same list of the other, and so are the printed
    diagnostics. *)
Theorem traversal_order_permutes_result
        (os : OS) (w : string -> list (string * list string * list string))
        (directory : string)
        (exclude_files exclude_directories allowed_css_patterns : list string) :
  Permutation (walk os directory) (w directory) ->
  let run1 := check_files os directory exclude_files exclude_directories
                          allowed_css_patterns in
  let run2 := check_files (with_walk os w) directory exclude_files
                          exclude_directories allowed_css_patterns in
  Permutation (violations (snd run1)) (violations (snd run2))
  /\ Permutation (correct_imports (snd run1)) (correct_imports (snd run2))
  /\ Permutation (embedded_violations (snd run1))
                 (embedded_violations (snd run2))
  /\ Permutation (fst run1) (fst run2).
Proof.
  intros H. cbv zeta. unfold check_files.
  cbn [fst snd results violations correct_imports embedded_violations].
  change (walk (with_walk os w) directory) with (w directory).
  pose proof (scan_walk_permutation os directory
                (map (abspath os) exclude_files)
                (map (abspath os) exclude_directories)
                allowed_css_patterns _ _ H) as P.
  cbv zeta in P. exact P.
Qed.

(** ** Where the entries of a result come from *)

Lemma fold_left_invariant_in {A B : Type} (P : A -> Prop) (f : A -> B -> A)
      (l : list B) :
  (forall a b, In b l -> P a -> P (f a b)) ->
  forall a, P a -> P (fold_left f l a).
Proof.
  induction l as [|b l IH]; intros step a Ha; [exact Ha|].
  cbn [fold_left]. apply IH.
  - intros a' b' Hb'. apply step. right. exact Hb'.
  - apply step; [left; reflexivity|exact Ha].
Qed.

(** The induction principle of the scan with what is known at each change of
    state: the file at hand is one the scan reads, the reference is one of
    its imports, the tokens are those of its text. *)
Lemma scan_walk_analyzed_invariant
      (os : OS) (directory : string)
      (exclude_files exclude_directories allowed_css_patterns : list string)
      (entries : list (string * list string * list string))
      (P : scan -> Prop) :
  (forall file_path content st css_file,
      analyzed os exclude_files exclude_directories entries file_path content ->
      In css_file (Re.findall css_import_pattern content) ->
      P st ->
      P (import_step os directory allowed_css_patterns file_path st css_file)) ->
  (forall file_path content st,
      analyzed os exclude_files exclude_directories entries file_path content ->
      truthy (check_embedded_css content) = true ->
      P st ->
      P (add_embedded_violation
           st (mkEmbeddedViolation file_path (check_embedded_css content)))) ->
  (forall st line, P st -> P (print st line)) ->
  forall st, P st ->
             P (scan_walk os directory exclude_files exclude_directories
                          allowed_css_patterns entries st).
Proof.
  intros Himport Hembedded Hprint.
  apply fold_left_invariant_in. intros st [[root dirs] files] Hentry Hst.
  unfold dir_step.
  destruct (existsb _ exclude_directories) eqn:Hdir; [exact Hst|].
  revert st Hst. apply fold_left_invariant_in. intros st file Hfile Hst.
  unfold file_step.
  destruct (Str.mem _ exclude_files) eqn:Hmem; [exact Hst|].
  destruct (_ && _) eqn:Hsel; [|exact Hst].
  destruct (read_text os _) as [content|e] eqn:Hread; [|apply Hprint, Hst].
  apply andb_prop in Hsel. destruct Hsel as [Hsuffix Htest].
  apply negb_true_iff in Htest.
  assert (A : analyzed os exclude_files exclude_directories entries
                       (abspath os (PosixPath.join root file)) content).
  { exists root, dirs, files, file. repeat split; assumption. }
  unfold analyze.
  destruct (truthy _) eqn:Htruthy; [apply (Hembedded _ _ _ A Htruthy)|];
    (revert st Hst; apply fold_left_invariant_in; intros st css_file Hcss Hst;
     apply (Himport _ _ _ _ A Hcss Hst)).
Qed.

Lemma scan_walk_entries_sourced
      (os : OS) (directory : string)
      (exclude_files exclude_directories allowed_css_patterns : list string)
      (entries : list (string * list string * list string)) :
  entries_sourced os exclude_files exclude_directories entries
    (scan_walk os directory exclude_files exclude_directories
               allowed_css_patterns entries empty_scan).
Proof.
  apply scan_walk_analyzed_invariant.
  - intros file_path content st css_file A Hcss (Hv & Hc & He).
    rewrite import_step_cases.
    destruct (candidate_exists _ _ _ _); [destruct (suffix_allowed _ _)|];
      (split; [|split]); cbn [add_violation add_correct_import loc_violations
                                loc_correct_css_imports
                                loc_embedded_css_violations];
      try assumption; intros x Hx;
      (apply in_app_or in Hx; destruct Hx as [Hx|[<-|[]]]; [auto|]);
      exists content; split; assumption.
  - intros file_path content st A Htruthy (Hv & Hc & He).
    split; [exact Hv|]. split; [exact Hc|].
    cbn [add_embedded_violation loc_embedded_css_violations]. intros x Hx.
    apply in_app_or in Hx. destruct Hx as [Hx|[<-|[]]]; [auto|].
    exists content. cbn [e_file_path e_css_codes].
    split; [exact A|]. split; [reflexivity|].
    destruct (check_embedded_css content); [discriminate Htruthy|discriminate].
  - intros st line H. exact H.
  - split; [|split]; intros x [].
Qed.

(** ** The matcher on the import pattern *)

Lemma drop_length_eq (n : nat) :
  forall s, String.length (Str.drop n s) = String.length s - n.
Proof.
  induction n as [|n IH]; intros [|c t]; cbn; try lia. apply IH.
Qed.

Lemma take_length (n : nat) :
  forall s, n <= String.length s -> String.length (Str.take n s) = n.
Proof.
  induction n as [|n IH]; intros [|c t] H; cbn in *; try lia.
  rewrite IH; lia.
Qed.

Lemma drop_take (n m : nat) :
  forall s, Str.drop n (Str.take (n + m) s) = Str.take m (Str.drop n s).
Proof.
  induction n as [|n IH]; intros s; [reflexivity|].
  destruct s as [|c t]; [destruct m; reflexivity|]. apply IH.
Qed.

Lemma startswith_take (w : string) :
  forall u, Str.startswith u w = true ->
            Str.take (String.length w) u = w
            /\ String.length w <= String.length u.
Proof.
  induction w as [|a w IH]; intros u H; [split; [reflexivity|cbn; lia]|].
  destruct u as [|b u]; [discriminate|].
  cbn in H. apply andb_prop in H. destruct H as [E H].
  apply Ascii.eqb_eq in E. subst b. destruct (IH u H) as [T L].
  cbn. rewrite T. split; [reflexivity|lia].
Qed.

Lemma class_run_length (p : ascii -> bool) (n : nat) :
  forall s, class_run p n s = true -> n <= String.length s.
Proof.
  induction n as [|n IH]; intros s H; [lia|].
  destruct s as [|c t]; [discriminate|].
  cbn in H. apply andb_prop in H. destruct H as [_ H].
  specialize (IH t H). cbn. lia.
Qed.

Lemma all_chars_take (p : ascii -> bool) (n m : nat) :
  forall s, class_run p n s = true ->
            all_chars p (Str.take m (Str.drop n s)) = true ->
            all_chars p (Str.take (n + m) s) = true.
Proof.
  induction n as [|n IH]; intros s H A; [exact A|].
  destruct s as [|c t]; [discriminate|].
  cbn in H. apply andb_prop in H. destruct H as [Hc H].
  cbn. rewrite Hc. apply IH; assumption.
Qed.

Lemma run_grp (r : Re.regex) (s : string) (g : option string) (k : Re.cont) :
  Re.run (Re.Grp r) s g k
  = Re.run r s g
      (fun s1 _ =>
         k s1 (Some (Str.take (String.length s - String.length s1) s))).
Proof. reflexivity. Qed.

Lemma run_cls_sound (p : ascii -> bool) (s : string) (g : option string)
      (k : Re.cont) (o : Re.outcome) :
  Re.run (Re.Cls p) s g k = Some o ->
  exists a t, s = String a t /\ p a = true /\ k t g = Some o.
Proof.
  destruct s as [|a t]; [discriminate|]. cbn.
  destruct (p a) eqn:E; [|discriminate].
  intros H. exists a, t. repeat split; assumption.
Qed.

Lemma run_lit_sound (w : string) :
  forall s g k o,
    Re.run (Re.lit w) s g k = Some o ->
    Str.startswith s w = true
    /\ k (Str.drop (String.length w) s) g = Some o.
Proof.
  induction w as [|a w IH]; intros s g k o H;
    [split; [destruct s; reflexivity|exact H]|].
  cbn [Re.lit] in H. rewrite run_cat, run_chr in H.
  destruct s as [|b t]; [discriminate|].
  destruct (Ascii.eqb b a) eqn:E; [|discriminate].
  destruct (IH _ _ _ _ H) as [S K].
  cbn [Str.startswith String.length Str.drop]. rewrite E, S.
  split; [reflexivity|exact K].
Qed.

(** A repeated character class, greedy or lazy: whichever alternative
    succeeds took some [n] characters of the class, at least [lo]. *)
Lemma rep_loop_cls_sound (p : ascii -> bool) (greedy : bool) (budget : nat) :
  forall lo s g k o,
    Re.rep_loop (Re.run (Re.Cls p)) greedy budget lo s g k = Some o ->
    exists n, lo <= n /\ class_run p n s = true
              /\ k (Str.drop n s) g = Some o.
Proof.
  induction budget as [|b IH]; intros lo s g k o H.
  - assert (lo = 0 /\ k s g = Some o) as [-> K].
    { destruct greedy, lo; cbn in H; try discriminate; split; try reflexivity;
        destruct (k s g); congruence. }
    exists 0. repeat split; [lia|exact K].
  - assert (C : (lo = 0 /\ k s g = Some o)
                \/ Re.run (Re.Cls p) s g
                     (fun s1 g1 =>
                        Re.rep_loop (Re.run (Re.Cls p)) greedy b (pred lo) s1 g1 k)
                   = Some o).
    { cbn [Re.rep_loop] in H. destruct greedy.
      - destruct (Re.run (Re.Cls p) s g _) as [o'|] eqn:R.
        + right. congruence.
        + left. destruct lo; [split; [reflexivity|exact H]|discriminate].
      - destruct lo as [|lo'].
        + destruct (k s g) as [o'|] eqn:K; [left; split; congruence|].
          right. exact H.
        + right. exact H. }
    destruct C as [[-> K]|R].
    + exists 0. repeat split; [lia|exact K].
    + apply run_cls_sound in R. destruct R as (a & t & -> & Pa & R).
      destruct (IH _ _ _ _ _ R) as (n & L & Cn & K).
      exists (S n). cbn [class_run Str.drop]. rewrite Pa, Cn.
      repeat split; [lia|exact K].
Qed.

(** The group of the import pattern: at least one character that is not a
    line feed, then [.css]. *)
Lemma import_group_sound (s : string) (g : option string) (k : Re.cont)
      (o : Re.outcome) :
  Re.run (Re.Grp (Re.Cat (Re.Repeat false 1 None (Re.Cls Re.dot))
                         (Re.lit ".css"))) s g k = Some o ->
  exists n,
    1 <= n /\ class_run Re.dot n s = true
    /\ Str.startswith (Str.drop n s) ".css" = true
    /\ k (Str.drop (n + 4) s) (Some (Str.take (n + 4) s)) = Some o.
Proof.
  rewrite run_grp, run_cat, run_repeat. intros H.
  apply rep_loop_cls_sound in H. destruct H as (n & L & C & H).
  apply run_lit_sound in H. destruct H as [S K].
  exists n. repeat split; try assumption.
  cbn [String.length] in K. rewrite drop_drop in K.
  pose proof (class_run_length _ _ _ C) as Ln.
  destruct (startswith_take _ _ S) as [_ Lw].
  rewrite drop_length_eq in Lw. cbn [String.length] in Lw.
  rewrite drop_length_eq in K.
  replace (String.length s - (String.length s - (n + 4))) with (n + 4) in K
    by lia.
  exact K.
Qed.

Lemma imported_text_shape (n : nat) (s : string) :
  1 <= n -> class_run Re.dot n s = true ->
  Str.startswith (Str.drop n s) ".css" = true ->
  Str.endswith (Str.take (n + 4) s) ".css" = true
  /\ 5 <= String.length (Str.take (n + 4) s)
  /\ all_chars Re.dot (Str.take (n + 4) s) = true.
Proof.
  intros L C S.
  pose proof (class_run_length _ _ _ C) as Ln.
  destruct (startswith_take _ _ S) as [T Lw].
  rewrite drop_length_eq in Lw. cbn [String.length] in Lw, T.
  assert (Len : String.length (Str.take (n + 4) s) = n + 4)
    by (apply take_length; lia).
  repeat split.
  - unfold Str.endswith. rewrite Len. cbn [String.length].
    replace (n + 4 - 4) with n by lia. rewrite drop_take, T.
    replace (Nat.leb 4 (n + 4)) with true
      by (symmetry; apply Nat.leb_le; lia).
    reflexivity.
  - lia.
  - apply all_chars_take; [exact C|]. rewrite T. reflexivity.
Qed.

Lemma match_at_css_import_pattern (s : string) (len : nat) (g : option string) :
  Re.match_at css_import_pattern s = Some (len, g) ->
  exists ref,
    g = Some ref
    /\ Str.endswith ref ".css" = true
    /\ 5 <= String.length ref
    /\ all_chars Re.dot ref = true.
Proof.
  unfold Re.match_at.
  destruct (Re.run css_import_pattern s None _) as [[s1 g1]|] eqn:R;
    [|discriminate].
  intros E. injection E as _ <-.
  unfold css_import_pattern in R.
  rewrite run_cat in R. apply run_lit_sound in R. destruct R as [_ R].
  rewrite run_cat, run_repeat in R.
  apply rep_loop_cls_sound in R. destruct R as (n1 & _ & _ & R).
  rewrite run_cat, run_repeat in R.
  apply rep_loop_cls_sound in R. destruct R as (n2 & _ & _ & R).
  rewrite run_cat in R.
  apply run_cls_sound in R. destruct R as (a & t & _ & _ & R).
  rewrite run_cat in R.
  apply import_group_sound in R. destruct R as (n & L & C & S & R).
  apply run_cls_sound in R. destruct R as (a' & t' & _ & _ & R).
  injection R as _ <-.
  exists (Str.take (n + 4) t). split; [reflexivity|].
  apply imported_text_shape; assumption.
Qed.

(** What holds of the group of every anchored match holds of every match
    found. *)
Lemma finditer_from_groups (r : Re.regex) (Q : option string -> Prop) :
  (forall s len g, Re.match_at r s = Some (len, g) -> Q g) ->
  forall s pos skip m,
    In m (Re.finditer_from r pos skip s) -> Q (Re.m_group1 m).
Proof.
  intros H s. induction s as [|c t IH]; intros pos skip m Hin.
  - destruct skip; [|destruct Hin]. cbn in Hin.
    destruct (Re.match_at r "") as [[len g]|] eqn:M; [|destruct Hin].
    destruct Hin as [<-|[]]. apply (H _ _ _ M).
  - destruct skip as [|k]; [|apply (IH _ _ _ Hin)].
    cbn [Re.finditer_from] in Hin.
    destruct (Re.match_at r (String c t)) as [[len g]|] eqn:M;
      [|apply (IH _ _ _ Hin)].
    destruct Hin as [<-|Hin]; [apply (H _ _ _ M)|apply (IH _ _ _ Hin)].
Qed.

Lemma findall_css_import_shape (content ref : string) :
  In ref (Re.findall css_import_pattern content) ->
  Str.endswith ref ".css" = true
  /\ 5 <= String.length ref
  /\ all_chars Re.dot ref = true.
Proof.
  unfold Re.findall, Re.finditer. intros H.
  apply in_map_iff in H. destruct H as (m & <- & Hm).
  apply (finditer_from_groups css_import_pattern
           (fun g => exists ref, g = Some ref
                                 /\ Str.endswith ref ".css" = true
                                 /\ 5 <= String.length ref
                                 /\ all_chars Re.dot ref = true)) in Hm.
  - destruct Hm as (ref & -> & H). exact H.
  - intros s len g. apply match_at_css_import_pattern.
Qed.

(** X3. Every entry of a result comes from a file the scan read: the file is
    listed in a walked directory that is not excluded and has no [test] in
    its path, it ends in [.ts] or [.tsx], it is not an excluded file and its
    text could be read; the reference of an import entry is one the import
    pattern extracts from that text, and the tokens of an embedded entry are
    the tokens of that text, at least one. *)
Theorem result_entries_come_from_analyzed_files
        (os : OS) (directory : string)
        (exclude_files exclude_directories allowed_css_patterns : list string) :
  let result := snd (check_files os directory exclude_files
                                 exclude_directories allowed_css_patterns) in
  let read := analyzed os (map (abspath os) exclude_files)
                       (map (abspath os) exclude_directories)
                       (walk os directory) in
  (forall v, In v (violations result) ->
     exists content,
       read (v_file_path v) content
       /\ In (v_css_file v) (Re.findall css_import_pattern content))
  /\ (forall c, In c (correct_imports result) ->
        exists content,
          read (c_file_path c) content
          /\ In (c_css_file c) (Re.findall css_import_pattern content))
  /\ (forall e, In e (embedded_violations result) ->
        exists content,
          read (e_file_path e) content
          /\ e_css_codes e = check_embedded_css content
          /\ e_css_codes e <> []).
Proof.
  cbv zeta. unfold check_files.
  cbn [snd results violations correct_imports embedded_violations].
  apply scan_walk_entries_sourced.
Qed.

(** X4. Every stylesheet reference in a result, violation or correct import,
    ends with [.css], has at least one character before that suffix and
    holds no line feed. *)
Theorem imported_references_end_with_css
        (os : OS) (directory : string)
        (exclude_files exclude_directories allowed_css_patterns : list string) :
  let result := snd (check_files os directory exclude_files
                                 exclude_directories allowed_css_patterns) in
  (forall v, In v (violations result) ->
     Str.endswith (v_css_file v) ".css" = true
     /\ 5 <= String.length (v_css_file v)
     /\ all_chars Re.dot (v_css_file v) = true)
  /\ (forall c, In c (correct_imports result) ->
        Str.endswith (c_css_file c) ".css" = true
        /\ 5 <= String.length (c_css_file c)
        /\ all_chars Re.dot (c_css_file c) = true).
Proof.
  cbv zeta. unfold check_files.
  cbn [snd results violations correct_imports].
  destruct (scan_walk_entries_sourced os directory
              (map (abspath os) exclude_files)
              (map (abspath os) exclude_directories)
              allowed_css_patterns (walk os directory)) as (Hv & Hc & _).
  split.
  - intros v Hin. destruct (Hv v Hin) as (content & _ & Href).
    apply (findall_css_import_shape content), Href.
  - intros c Hin. destruct (Hc c Hin) as (content & _ & Href).
    apply (findall_css_import_shape content), Href.
Qed.

(** ** The tokens and the matches of the colour pattern *)

Lemma hex_run_take (n : nat) :
  forall u, ColorLiteral.hex_run n u = true ->
            String.length (Str.take n u) = n
            /\ ColorLiteral.hex_run n (Str.take n u) = true.
Proof.
  induction n as [|n IH]; intros u H; [split; reflexivity|].
  destruct u as [|c t]; [discriminate|].
  cbn in H. apply andb_prop in H. destruct H as [Hc H].
  destruct (IH t H) as [L R]. cbn. rewrite Hc, L, R. split; reflexivity.
Qed.

Lemma hex_run_bound (n : nat) (s : string) :
  ColorLiteral.hex_run n s = true -> n <= String.length s.
Proof.
  intros H. pose proof (hex_run_length n s H). lia.
Qed.

(** X6. A text without the character [#] has no token: the detector returns
    the empty list. *)
Theorem no_hash_no_embedded_css (content : string) :
  Str.contains "#" content = false -> check_embedded_css content = [].
Proof.
  unfold check_embedded_css, Re.findall, Re.finditer.
  generalize 0 at 1. generalize 0.
  induction content as [|c t IH]; intros skip pos H.
  - destruct skip; reflexivity.
  - cbn [Str.contains Str.startswith] in H.
    apply orb_false_iff in H. destruct H as [Hc Ht].
    destruct skip as [|k]; [|apply IH, Ht].
    cbn [Re.finditer_from]. rewrite match_at_embedded_css_pattern.
    destruct (Ascii.eqb c "#"); [|apply IH, Ht].
    destruct t; discriminate Hc.
Qed.

Lemma spans_chain_weaken (lo lo' hi : nat) (l : list (nat * nat)) :
  lo <= lo' -> spans_chain lo' hi l -> spans_chain lo hi l.
Proof.
  destruct l as [|[a b] r]; [intros; exact I|].
  cbn. intros L (A & B & C & D). repeat split; try assumption. lia.
Qed.

Lemma literal_length_bound (s : string) (len : nat) :
  ColorLiteral.literal_length s = Some len ->
  (len = 4 \/ len = 7) /\ len <= String.length s.
Proof.
  destruct s as [|c t]; [discriminate|]. cbn [ColorLiteral.literal_length].
  destruct (Ascii.eqb c "#"); [|discriminate].
  destruct (ColorLiteral.hex_run 6 t) eqn:H6.
  - intros E. injection E as <-. apply hex_run_bound in H6. cbn. lia.
  - destruct (ColorLiteral.hex_run 3 t) eqn:H3; [|discriminate].
    intros E. injection E as <-. apply hex_run_bound in H3. cbn. lia.
Qed.

Lemma spans_from_chain (s : string) :
  forall pos skip,
    spans_chain (pos + skip) (pos + String.length s)
                (ColorLiteral.spans_from pos skip s).
Proof.
  induction s as [|c t IH]; intros pos skip; [exact I|].
  cbn [ColorLiteral.spans_from String.length].
  destruct skip as [|k].
  - destruct (ColorLiteral.literal_length (String c t)) as [len|] eqn:E.
    + apply literal_length_bound in E. cbn [String.length] in E.
      destruct E as [E L]. cbn [spans_chain].
      repeat split; try lia.
      specialize (IH (S pos) (pred len)).
      replace (S pos + pred len) with (pos + len) in IH by lia.
      replace (S pos + String.length t) with (pos + S (String.length t)) in IH
        by lia.
      exact IH.
    + specialize (IH (S pos) 0).
      replace (S pos + String.length t) with (pos + S (String.length t)) in IH
        by lia.
      apply (spans_chain_weaken _ (S pos + 0)); [lia|exact IH].
  - specialize (IH (S pos) k).
    replace (S pos + k) with (pos + S k) in IH by lia.
    replace (S pos + String.length t) with (pos + S (String.length t)) in IH
      by lia.
    exact IH.
Qed.

(** X7. The matches of the detector lie within the text, follow one another
    from left to right and never overlap: each starts at or after the end of
    the one before, covers 4 or 7 characters and ends at or before the end of
    the text. *)
Theorem embedded_css_matches_do_not_overlap (content : string) :
  spans_chain 0 (String.length content)
              (map span (Re.finditer embedded_css_pattern content)).
Proof.
  unfold Re.finditer. rewrite finditer_from_spans.
  apply (spans_from_chain content 0 0).
Qed.

(** ** Counting the import entries *)

(** X8. Analyzing a text adds one import entry for each reference the import
    pattern extracts from it, repeated references included: the violations
    and the correct imports grow together by the number of references. *)
Theorem one_import_entry_per_reference
        (os : OS) (directory : string) (allowed_css_patterns : list string)
        (file_path : string) (st : scan) (content : string) :
  let st' := analyze os directory allowed_css_patterns file_path st content in
  length (loc_violations st') + length (loc_correct_css_imports st')
  = length (loc_violations st) + length (loc_correct_css_imports st)
    + length (Re.findall css_import_pattern content).
Proof.
  cbv zeta. unfold analyze.
  assert (F : forall l st0,
             length (loc_violations
                       (fold_left (import_step os directory allowed_css_patterns
                                               file_path) l st0))
             + length (loc_correct_css_imports
                         (fold_left (import_step os directory
                                                 allowed_css_patterns file_path)
                                    l st0))
             = length (loc_violations st0)
               + length (loc_correct_css_imports st0) + length l).
  { induction l as [|css_file l IH]; intros st0; [cbn; lia|].
    cbn [fold_left length]. rewrite IH, import_step_cases.
    destruct (candidate_exists _ _ _ _); [destruct (suffix_allowed _ _)|];
      cbn [add_violation add_correct_import loc_violations
                         loc_correct_css_imports];
      rewrite length_app; cbn [length]; lia. }
  destruct (truthy _);
    cbn [add_embedded_violation loc_violations loc_correct_css_imports];
    apply F.
Qed.

(** ** The exclusion lists as sets *)

Lemma existsb_same_members {A : Type} (f : A -> bool) (l1 l2 : list A) :
  (forall x, In x l1 <-> In x l2) -> existsb f l1 = existsb f l2.
Proof.
  intros H. destruct (existsb f l1) eqn:E1, (existsb f l2) eqn:E2;
    try reflexivity.
  - apply existsb_exists in E1. destruct E1 as (x & Hx & Fx).
    apply H in Hx. assert (existsb f l2 = true) by
        (apply existsb_exists; exists x; split; assumption). congruence.
  - apply existsb_exists in E2. destruct E2 as (x & Hx & Fx).
    apply H in Hx. assert (existsb f l1 = true) by
        (apply existsb_exists; exists x; split; assumption). congruence.
Qed.

Lemma map_same_members {A B : Type} (f : A -> B) (l1 l2 : list A) :
  (forall x, In x l1 <-> In x l2) ->
  forall y, In y (map f l1) <-> In y (map f l2).
Proof.
  intros H y. rewrite !in_map_iff.
  split; intros (x & E & Hx); exists x; (split; [exact E|apply H, Hx]).
Qed.

Lemma fold_left_same {A B : Type} (f g : A -> B -> A) :
  (forall a b, f a b = g a b) ->
  forall l a, fold_left f l a = fold_left g l a.
Proof.
  intros H l. induction l as [|b l IH]; intros a; [reflexivity|].
  cbn. rewrite H. apply IH.
Qed.

(** X9. Only the members of the three lists of the command line count: two
    runs whose excluded files, excluded directories and allowed patterns have
    the same members, in any order and with any repetition, print the same
    lines and return the same result. *)
Theorem lists_are_read_as_sets
        (os : OS) (directory : string)
        (files1 files2 dirs1 dirs2 allowed1 allowed2 : list string) :
  (forall x, In x files1 <-> In x files2) ->
  (forall x, In x dirs1 <-> In x dirs2) ->
  (forall x, In x allowed1 <-> In x allowed2) ->
  check_files os directory files1 dirs1 allowed1
  = check_files os directory files2 dirs2 allowed2.
Proof.
  intros Hf Hd Ha. unfold check_files.
  assert (E : forall entries st,
             scan_walk os directory (map (abspath os) files1)
                       (map (abspath os) dirs1) allowed1 entries st
             = scan_walk os directory (map (abspath os) files2)
                         (map (abspath os) dirs2) allowed2 entries st).
  { intros entries st. revert entries st. unfold scan_walk.
    apply fold_left_same. intros st [[root dirs] files]. unfold dir_step.
    rewrite (existsb_same_members _ _ _ (map_same_members (abspath os) _ _ Hd)).
    destruct (existsb _ _); [reflexivity|].
    revert st. apply fold_left_same. intros st file. unfold file_step, Str.mem.
    rewrite (existsb_same_members _ _ _ (map_same_members (abspath os) _ _ Hf)).
    destruct (existsb _ _); [reflexivity|].
    destruct (_ && _); [|reflexivity].
    destruct (read_text os _) as [content|e]; [|reflexivity].
    unfold analyze.
    rewrite (fold_left_same
               (import_step os directory allowed1
                            (abspath os (PosixPath.join root file)))
               (import_step os directory allowed2
                            (abspath os (PosixPath.join root file)))).
    - reflexivity.
    - intros a css_file. rewrite !import_step_cases. unfold suffix_allowed.
      rewrite (existsb_same_members _ _ _ Ha). reflexivity. }
  rewrite E. reflexivity.
Qed.

(** ** Excluded files *)

Lemma mem_in (x : string) (l : list string) : In x l -> Str.mem x l = true.
Proof.
  intros H. unfold Str.mem. apply existsb_exists. exists x.
  split; [exact H|apply String.eqb_refl].
Qed.

(** ** Absolute paths *)

Lemma startswith_nil (s : string) : Str.startswith s "" = true.
Proof. destruct s; reflexivity. Qed.

Lemma startswith_app (s x : string) : Str.startswith (s ++ x) s = true.
Proof.
  induction s as [|c s IH]; [apply startswith_nil|].
  cbn. rewrite Ascii.eqb_refl. exact IH.
Qed.

Lemma startswith_trans (c : string) :
  forall a b, Str.startswith a b = true -> Str.startswith b c = true ->
              Str.startswith a c = true.
Proof.
  induction c as [|x c IH]; intros a b Hab Hbc; [apply startswith_nil|].
  destruct b as [|y b]; [discriminate|]. destruct a as [|z a]; [discriminate|].
  cbn in *. apply andb_prop in Hab, Hbc.
  destruct Hab as [E1 Hab], Hbc as [E2 Hbc].
  apply Ascii.eqb_eq in E1, E2. subst. rewrite Ascii.eqb_refl.
  apply (IH a b Hab Hbc).
Qed.

Lemma isabs_app (s x : string) :
  PosixPath.isabs s = true -> PosixPath.isabs (s ++ x) = true.
Proof.
  unfold PosixPath.isabs. intros H.
  apply (startswith_trans "/" _ s); [apply startswith_app|exact H].
Qed.

Lemma normpath_isabs (p : string) :
  PosixPath.isabs p = true -> PosixPath.isabs (PosixPath.normpath p) = true.
Proof.
  unfold PosixPath.isabs, PosixPath.normpath. intros H.
  destruct p as [|c t]; [discriminate|]. cbn [String.eqb]. rewrite H.
  destruct (Str.startswith (String c t) "//" && _); cbn;
    first [reflexivity|apply startswith_nil].
Qed.

Lemma abspath_isabs (cwd p : string) :
  PosixPath.isabs cwd = true ->
  PosixPath.isabs (PosixPath.abspath cwd p) = true.
Proof.
  intros H. unfold PosixPath.abspath. apply normpath_isabs.
  destruct (PosixPath.isabs p) eqn:E; [exact E|].
  unfold PosixPath.join. unfold PosixPath.isabs in E. rewrite E.
  destruct (_ || _); apply isabs_app, H.
Qed.

(** X11. When the working directory is an absolute path, as [os.getcwd]
    gives it, every file path in a result is absolute, however the root
    directory was written. *)
Theorem reported_file_paths_are_absolute
        (os : OS) (directory : string)
        (exclude_files exclude_directories allowed_css_patterns : list string) :
  PosixPath.isabs (getcwd os) = true ->
  let result := snd (check_files os directory exclude_files
                                 exclude_directories allowed_css_patterns) in
  (forall v, In v (violations result) ->
             PosixPath.isabs (v_file_path v) = true)
  /\ (forall c, In c (correct_imports result) ->
                PosixPath.isabs (c_file_path c) = true)
  /\ (forall e, In e (embedded_violations result) ->
                PosixPath.isabs (e_file_path e) = true).
Proof.
  intros H. cbv zeta. unfold check_files.
  cbn [snd results violations correct_imports embedded_violations].
  destruct (scan_walk_entries_sourced os directory
              (map (abspath os) exclude_files)
              (map (abspath os) exclude_directories)
              allowed_css_patterns (walk os directory)) as (Hv & Hc & He).
  repeat split; intros x Hin;
    [destruct (Hv x Hin) as (content & A & _)
    |destruct (Hc x Hin) as (content & A & _)
    |destruct (He x Hin) as (content & A & _)];
    destruct A as (root & dirs & files & file & _ & _ & -> & _);
    apply abspath_isabs, H.
Qed.

(** ** What a run prints *)

Lemma report_violations_output (result : CSSCheckResult) :
  truthy (fst (report_violations result))
  = truthy (violations result) || truthy (embedded_violations result).
Proof.
  unfold report_violations.
  destruct (violations result), (embedded_violations result); reflexivity.
Qed.

(** X12. A run that exits with code 0 and without [--show_success] prints
    nothing but the diagnostics of the scan; a run that exits with code 1
    prints, after those diagnostics, the report as one text and then the
    remediation message, before the correct imports if they are shown. *)
Theorem exit_code_tells_what_is_printed (os : OS) (args : Args) :
  let run := check_files os (directory args) (exclude_files args)
                         (exclude_directories args)
                         (allowed_css_patterns args) in
  (snd (main os args) = 0%Z -> show_success args = false ->
   fst (main os args) = fst run)
  /\ (snd (main os args) = 1%Z ->
      fst (main os args)
      = fst run
          ++ [Str.join Str.nl (fst (report_violations (snd run))); remediation]
          ++ (if show_success args && truthy (correct_imports (snd run))
              then success_header :: map format_import (correct_imports (snd run))
              else [])).
Proof.
  cbv zeta.
  rewrite main_exit_code, report_violations_exit_code.
  unfold main, report.
  destruct (check_files _ _ _ _ _) as [out0 result]. cbn [fst snd].
  pose proof (report_violations_output result) as T.
  destruct (report_violations result) as [output code]. cbn [fst snd] in *.
  rewrite T. split; intros E.
  - intros ->. destruct (truthy (violations result) || _); [discriminate|].
    cbn. apply app_nil_r.
  - destruct (truthy (violations result) || _); [reflexivity|discriminate].
Qed.

(** ** Excluded directories in a directory tree *)

Lemma join_startswith (top name : string) :
  name_ok name = true ->
  Str.startswith (PosixPath.join top name) top = true.
Proof.
  unfold name_ok, PosixPath.join. intros H.
  apply andb_prop in H. destruct H as [_ H]. apply negb_true_iff in H.
  destruct name as [|c t]; cbn [Str.contains] in H;
    apply orb_false_iff in H; destruct H as [H _]; rewrite H;
    destruct (_ || _); apply startswith_app.
Qed.

Lemma startswith_refl (s : string) : Str.startswith s s = true.
Proof.
  induction s as [|c s IH]; [reflexivity|].
  cbn. rewrite Ascii.eqb_refl. exact IH.
Qed.

(** Every directory the walk of [top] yields has a path that starts with
    [top]. *)
Lemma walk_node_roots (n : TreeFS.node) :
  forall top,
    names_ok n = true ->
    forall e, In e (TreeFS.walk_node top n) ->
              Str.startswith (fst (fst e)) top = true.
Proof.
  induction n as [data|listable entries IH] using node_induction;
    intros top Hok e Hin.
  - destruct Hin.
  - destruct listable; [|destruct Hin].
    cbn [TreeFS.walk_node] in Hin. destruct Hin as [<-|Hin];
      [apply startswith_refl|].
    cbn [names_ok] in Hok. revert Hok Hin.
    induction IH as [|[name x] r Hx _ IHr]; intros Hok Hin; [destruct Hin|].
    apply andb_prop in Hok. destruct Hok as [Hok Hr].
    apply andb_prop in Hok. destruct Hok as [Hname Hnx].
    cbn [snd] in Hx.
    destruct x as [data|listable entries'].
    + apply (IHr Hr Hin).
    + apply in_app_or in Hin. destruct Hin as [Hin|Hin].
      * apply (startswith_trans top _ (PosixPath.join top name)).
        -- apply (Hx _ Hnx e Hin).
        -- apply join_startswith, Hname.
      * apply (IHr Hr Hin).
Qed.

Lemma scan_walk_all_excluded
      (os : OS) (directory : string)
      (exclude_files exclude_directories allowed_css_patterns : list string)
      (entries : list (string * list string * list string)) :
  (forall e, In e entries ->
             existsb (fun exclude_dir => Str.startswith (fst (fst e)) exclude_dir)
                     exclude_directories = true) ->
  forall st,
    scan_walk os directory exclude_files exclude_directories
              allowed_css_patterns entries st = st.
Proof.
  induction entries as [|[[root dirs] files] entries IH]; intros H st;
    [reflexivity|].
  unfold scan_walk. cbn [fold_left].
  pose proof (H (root, dirs, files) (or_introl eq_refl)) as E. cbn [fst] in E.
  unfold dir_step at 2. rewrite E.
  apply IH. intros e He. apply H. right. exact He.
Qed.

(** X13. Exclusion by prefix removes a whole subtree: when the path [top] of
    a directory starts with an excluded entry, the scan of everything the
    walk yields at and below [top] leaves the state as it is, although the
    walk itself still descends into the subtree. *)
Theorem excluded_prefix_skips_whole_subtree
        (os : OS) (directory : string)
        (exclude_files exclude_directories allowed_css_patterns : list string)
        (n : TreeFS.node) (top exclude_dir : string) (st : scan) :
  names_ok n = true ->
  In exclude_dir exclude_directories ->
  Str.startswith top exclude_dir = true ->
  scan_walk os directory exclude_files exclude_directories
            allowed_css_patterns (TreeFS.walk_node top n) st
  = st.
Proof.
  intros Hok Hin Hpre. apply scan_walk_all_excluded. intros e He.
  apply existsb_exists. exists exclude_dir. split; [exact Hin|].
  apply (startswith_trans exclude_dir _ top); [|exact Hpre].
  apply (walk_node_roots n top Hok e He).
Qed.

(** ** The further properties at the sample repository *)

Lemma traversal_order_permutes_result_witness :
  Permutation
    (violations
       (snd (check_files Sample.os "/repo/src" [] [] ["app.module.css"])))
    (violations
       (snd (check_files
               (with_walk Sample.os (fun top => rev (walk Sample.os top)))
               "/repo/src" [] [] ["app.module.css"]))).
Proof.
  apply (proj1 (traversal_order_permutes_result
                  Sample.os (fun top => rev (walk Sample.os top))
                  "/repo/src" [] [] ["app.module.css"]
                  (Permutation_rev (walk Sample.os "/repo/src")))).
Defined.

Lemma result_entries_come_from_analyzed_files_witness :
  exists content,
    analyzed Sample.os [] [] (walk Sample.os "/repo/src")
             "/repo/src/App.test.tsx" content
    /\ In "./missing.css" (Re.findall css_import_pattern content).
Proof.
  apply (proj1 (result_entries_come_from_analyzed_files
                  Sample.os "/repo/src" [] [] ["app.module.css"])
               (mkViolation "/repo/src/App.test.tsx" "./missing.css"
                            "File not found")).
  vm_compute. left. reflexivity.
Defined.

Lemma imported_references_end_with_css_witness :
  Str.endswith "./missing.css" ".css" = true
  /\ 5 <= String.length "./missing.css"
  /\ all_chars Re.dot "./missing.css" = true.
Proof.
  apply (proj1 (imported_references_end_with_css
                  Sample.os "/repo/src" [] [] ["app.module.css"])
               (mkViolation "/repo/src/App.test.tsx" "./missing.css"
                            "File not found")).
  vm_compute. left. reflexivity.
Defined.

Lemma no_hash_no_embedded_css_witness :
  Str.contains "#" "const shade = 'red';" = false
  /\ check_embedded_css "const shade = 'red';" = [].
Proof.
  split; [reflexivity|].
  apply (no_hash_no_embedded_css "const shade = 'red';"). reflexivity.
Defined.

Lemma lists_are_read_as_sets_witness :
  check_files Sample.os "/repo/src" ["src/zeta.ts"; "src/secret.ts"] []
              ["app.module.css"; "legacy.css"]
  = check_files Sample.os "/repo/src"
                ["src/secret.ts"; "src/zeta.ts"; "src/zeta.ts"] []
                ["legacy.css"; "app.module.css"].
Proof.
  apply (lists_are_read_as_sets Sample.os "/repo/src");
    intros x; cbn [In]; tauto.
Defined.

Lemma reported_file_paths_are_absolute_witness :
  PosixPath.isabs (getcwd Sample.os) = true
  /\ forall e,
      In e (embedded_violations
              (snd (check_files Sample.os "src" [] [] ["app.module.css"]))) ->
      PosixPath.isabs (e_file_path e) = true.
Proof.
  split; [reflexivity|].
  apply (proj2 (proj2 (reported_file_paths_are_absolute
                         Sample.os "src" [] [] ["app.module.css"] eq_refl))).
Defined.

Lemma exit_code_tells_what_is_printed_witness :
  snd (main Sample.os (default_args "/repo/src/styles")) = 0%Z
  /\ fst (main Sample.os (default_args "/repo/src/styles"))
     = fst (check_files Sample.os "/repo/src/styles" [] []
                        ["app.module.css"]).
Proof.
  split; [reflexivity|].
  apply (proj1 (exit_code_tells_what_is_printed
                  Sample.os (default_args "/repo/src/styles")));
    reflexivity.
Defined.

Lemma excluded_prefix_skips_whole_subtree_witness :
  scan_walk Sample.os "/repo/src" [] ["/repo/src/skip"] ["app.module.css"]
            (TreeFS.walk_node
               "/repo/src/skip"
               (TreeFS.Dir true
                  [ ("a.tsx", Sample.text "color: #fff;");
                    ("inner", TreeFS.Dir true
                                [ ("b.ts", Sample.text "color: #abc;") ]) ]))
            empty_scan
  = empty_scan.
Proof.
  apply (excluded_prefix_skips_whole_subtree
           Sample.os "/repo/src" [] ["/repo/src/skip"] ["app.module.css"]
           _ "/repo/src/skip" "/repo/src/skip" empty_scan).
  - reflexivity.
  - left. reflexivity.
  - reflexivity.
Defined.

(** * From the text of a file to the result *)

(** ** What the scan of a walk holds *)

Lemma scan_includes_refl (a : scan) : scan_includes a a.
Proof. repeat split; apply incl_refl. Qed.

Lemma scan_includes_trans (a b c : scan) :
  scan_includes a b -> scan_includes b c -> scan_includes a c.
Proof.
  intros (A1 & A2 & A3) (B1 & B2 & B3).
  repeat split; eapply incl_tran; eassumption.
Qed.

Lemma scan_includes_app_l (a b c : scan) :
  scan_includes a c -> scan_includes (scan_app a b) c.
Proof.
  intros (A1 & A2 & A3).
  repeat split; cbn; apply incl_appl; assumption.
Qed.

Lemma scan_includes_app_r (a b : scan) : scan_includes (scan_app a b) b.
Proof. repeat split; cbn; apply incl_appr, incl_refl. Qed.

(** A loop whose turns only append holds, at its end, what each turn
    appends. *)
Lemma fold_left_includes {B : Type} (f : scan -> B -> scan) :
  (forall st b, f st b = scan_app st (f empty_scan b)) ->
  forall l b, In b l ->
              forall st, scan_includes (fold_left f l st) (f empty_scan b).
Proof.
  intros H l. induction l as [|x l IH]; intros b Hin st; [destruct Hin|].
  cbn [fold_left]. destruct Hin as [->|Hin]; [|apply IH, Hin].
  rewrite (fold_left_appends f H), (H st b).
  apply scan_includes_app_l, scan_includes_app_r.
Qed.

(** The scan of a walk holds what the analysis of each file it reads
    gives. *)
Lemma scan_walk_includes_analyze
      (os : OS) (directory : string)
      (exclude_files exclude_directories allowed_css_patterns : list string)
      (entries : list (string * list string * list string))
      (file_path content : string) :
  analyzed os exclude_files exclude_directories entries file_path content ->
  scan_includes
    (scan_walk os directory exclude_files exclude_directories
               allowed_css_patterns entries empty_scan)
    (analyze os directory allowed_css_patterns file_path empty_scan content).
Proof.
  intros (root & dirs & files & file & Hentry & Hfile & -> & Hdir & Hmem
          & Hsuffix & Htest & Hread).
  apply (scan_includes_trans _
           (dir_step os directory exclude_files exclude_directories
                     allowed_css_patterns empty_scan (root, dirs, files))).
  - apply (fold_left_includes _ (dir_step_appends os directory exclude_files
                                   exclude_directories allowed_css_patterns)
                              entries _ Hentry).
  - unfold dir_step. rewrite Hdir.
    assert (E : file_step os directory exclude_files allowed_css_patterns root
                          empty_scan file
                = analyze os directory allowed_css_patterns
                          (abspath os (PosixPath.join root file))
                          empty_scan content).
    { unfold file_step. rewrite Hmem, Hsuffix, Htest, Hread. reflexivity. }
    rewrite <- E.
    apply (fold_left_includes _ (file_step_appends os directory exclude_files
                                   allowed_css_patterns root)
                              files _ Hfile).
Qed.

(** ** The import lists after the loop over the references *)

Lemma import_loop_lists
      (os : OS) (directory : string) (allowed_css_patterns : list string)
      (file_path : string) (css_imports : list string) :
  forall st,
    loc_violations
      (fold_left (import_step os directory allowed_css_patterns file_path)
                 css_imports st)
    = loc_violations st
        ++ flat_map (violation_of os directory allowed_css_patterns file_path)
                    css_imports
    /\ loc_correct_css_imports
         (fold_left (import_step os directory allowed_css_patterns file_path)
                    css_imports st)
       = loc_correct_css_imports st
           ++ flat_map (correct_import_of os directory allowed_css_patterns
                                          file_path)
                       css_imports.
Proof.
  induction css_imports as [|css_file l IH]; intros st.
  - cbn. rewrite !app_nil_r. split; reflexivity.
  - cbn [fold_left flat_map]. destruct (IH (import_step os directory
                                              allowed_css_patterns file_path
                                              st css_file)) as [Hv Hc].
    rewrite Hv, Hc, import_step_cases.
    unfold violation_of, correct_import_of.
    destruct (candidate_exists _ _ _ _); [destruct (suffix_allowed _ _)|];
      cbn [andb add_violation add_correct_import loc_violations
                loc_correct_css_imports app];
      rewrite <- ?app_assoc; split; reflexivity.
Qed.

Lemma analyze_import_lists
      (os : OS) (directory : string) (allowed_css_patterns : list string)
      (file_path : string) (st : scan) (content : string) :
  loc_violations (analyze os directory allowed_css_patterns file_path st content)
  = loc_violations st
      ++ flat_map (violation_of os directory allowed_css_patterns file_path)
                  (Re.findall css_import_pattern content)
  /\ loc_correct_css_imports
       (analyze os directory allowed_css_patterns file_path st content)
     = loc_correct_css_imports st
         ++ flat_map (correct_import_of os directory allowed_css_patterns
                                        file_path)
                     (Re.findall css_import_pattern content).
Proof.
  unfold analyze.
  destruct (truthy _);
    cbn [add_embedded_violation loc_violations loc_correct_css_imports];
    apply import_loop_lists.
Qed.

(** Every reference of a file the scan reads has its entry in the lists of
    the scan, by the two checks. *)
Lemma scan_walk_classifies
      (os : OS) (directory : string)
      (exclude_files exclude_directories allowed_css_patterns : list string)
      (entries : list (string * list string * list string))
      (file_path content css_file : string) :
  analyzed os exclude_files exclude_directories entries file_path content ->
  In css_file (Re.findall css_import_pattern content) ->
  incl (violation_of os directory allowed_css_patterns file_path css_file)
       (loc_violations
          (scan_walk os directory exclude_files exclude_directories
                     allowed_css_patterns entries empty_scan))
  /\ incl (correct_import_of os directory allowed_css_patterns file_path
                             css_file)
          (loc_correct_css_imports
             (scan_walk os directory exclude_files exclude_directories
                        allowed_css_patterns entries empty_scan)).
Proof.
  intros A Hcss.
  destruct (scan_walk_includes_analyze os directory exclude_files
              exclude_directories allowed_css_patterns entries file_path
              content A) as (Iv & Ic & _).
  destruct (analyze_import_lists os directory allowed_css_patterns file_path
                                 empty_scan content) as [Ev Ec].
  rewrite Ev in Iv. rewrite Ec in Ic. cbn [empty_scan loc_violations
    loc_correct_css_imports app] in Iv, Ic.
  split; intros x Hx; [apply Iv|apply Ic];
    apply in_flat_map; exists css_file; split; assumption.
Qed.

(** The file [App.test.tsx] of the sample repository is one the scan of
    [/repo/src] reads. *)
Lemma sample_app_test_analyzed :
  analyzed Sample.os [] [] (walk Sample.os "/repo/src")
           "/repo/src/App.test.tsx" Sample.app_test_tsx.
Proof.
  exists "/repo/src", ["styles"; "test"; "skip"],
    ["App.test.tsx"; "legacy.css"; "secret.ts"; "zeta.ts"], "App.test.tsx".
  split; [vm_compute; left; reflexivity|].
  split; [left; reflexivity|].
  repeat split; reflexivity.
Qed.



(** C10. With an empty list of allowed patterns no correct import is ever
    produced and every extracted reference whose target exists becomes a
    violation with reason [Invalid import]: the result of the scan has no
    correct import; the analysis of a text leaves the correct imports as they
    were; a turn of the loop for a reference with an existing candidate
    appends that violation; and for every file the scan reads and every
    reference extracted from its text that has an existing candidate, that
    violation is in the result of [check_files]. *)
Theorem empty_allow_list_has_no_correct_import
        (os : OS) (directory : string)
        (exclude_files exclude_directories : list string) :
  correct_imports
    (snd (check_files os directory exclude_files exclude_directories [])) = []
  /\ (forall file_path st css_file,
         candidate_exists os directory file_path css_file = true ->
         import_step os directory [] file_path st css_file
         = add_violation st (mkViolation file_path css_file "Invalid import"))
  /\ (forall file_path st content,
         loc_correct_css_imports (analyze os directory [] file_path st content)
         = loc_correct_css_imports st)
  /\ (forall file_path content css_file,
         analyzed os (map (abspath os) exclude_files)
                  (map (abspath os) exclude_directories)
                  (walk os directory) file_path content ->
         In css_file (Re.findall css_import_pattern content) ->
         candidate_exists os directory file_path css_file = true ->
         In (mkViolation file_path css_file "Invalid import")
            (violations
               (snd (check_files os directory exclude_files
                                 exclude_directories [])))).
Proof.
  split; [|split; [|split]].
  - unfold check_files. cbn [snd results correct_imports].
    apply (scan_walk_invariant os directory _ _ []
             (fun st => loc_correct_css_imports st = [])).
    + intros file_path st css_file H. rewrite import_step_cases.
      destruct (candidate_exists os directory file_path css_file); exact H.
    + intros st e H. exact H.
    + intros st line H. exact H.
    + reflexivity.
  - intros file_path st css_file E. rewrite import_step_cases, E. reflexivity.
  - intros file_path st content.
    destruct (analyze_import_lists os directory [] file_path st content)
      as [_ Ec].
    rewrite Ec. clear Ec.
    induction (Re.findall css_import_pattern content) as [|css_file l IH];
      [apply app_nil_r|].
    cbn [flat_map]. unfold correct_import_of at 1. cbn [suffix_allowed existsb].
    rewrite andb_false_r. exact IH.
  - intros file_path content css_file A Hcss E.
    unfold check_files. cbn [snd results violations].
    destruct (scan_walk_classifies os directory _ _ [] _ _ _ _ A Hcss)
      as [Iv _].
    unfold violation_of in Iv. rewrite E in Iv. apply Iv. left. reflexivity.
Qed.

Lemma empty_allow_list_has_no_correct_import_witness :
  candidate_exists Sample.os "/repo/src" "/repo/src/App.test.tsx"
                   "./styles/app.module.css" = true
  /\ import_step Sample.os "/repo/src" [] "/repo/src/App.test.tsx" empty_scan
                 "./styles/app.module.css"
     = add_violation empty_scan
         (mkViolation "/repo/src/App.test.tsx" "./styles/app.module.css"
                      "Invalid import")
  /\ In (mkViolation "/repo/src/App.test.tsx" "./styles/app.module.css"
                     "Invalid import")
        (violations (snd (check_files Sample.os "/repo/src" [] [] []))).
Proof.
  pose proof (empty_allow_list_has_no_correct_import
                Sample.os "/repo/src" [] []) as T.
  destruct T as (_ & Tstep & _ & Tscan).
  split; [reflexivity|]. split.
  - apply Tstep. reflexivity.
  - apply (Tscan "/repo/src/App.test.tsx" Sample.app_test_tsx
                 "./styles/app.module.css" sample_app_test_analyzed).
    + vm_compute. tauto.
    + reflexivity.
Defined.

(** ** Which digits a token holds *)

Lemma drop_succ (pos : nat) :
  forall content c t,
    Str.drop pos content = String c t -> Str.drop (S pos) content = t.
Proof.
  induction pos as [|pos IH]; intros content c t H.
  - cbn in H. subst content. reflexivity.
  - destruct content as [|a u]; [discriminate H|]. cbn in H.
    apply (IH u c t H).
Qed.

Lemma finditer_from_tokens (content s : string) :
  forall pos skip,
    Str.drop pos content = s ->
    map (fun m => match Re.m_group1 m with
                  | Some g => g
                  | None => EmptyString
                  end)
        (Re.finditer_from embedded_css_pattern pos skip s)
    = map (last_three content) (ColorLiteral.spans_from pos skip s).
Proof.
  induction s as [|c t IH]; intros pos skip H.
  - destruct skip; reflexivity.
  - pose proof (drop_succ pos content c t H) as Ht.
    destruct skip as [|k]; [|apply (IH (S pos) k Ht)].
    cbn [Re.finditer_from ColorLiteral.spans_from].
    rewrite match_at_embedded_css_pattern. cbn [ColorLiteral.literal_length].
    destruct (Ascii.eqb c "#"); [|apply (IH (S pos) 0 Ht)].
    destruct (ColorLiteral.hex_run 6 t).
    + cbn [map Re.m_group1 pred]. rewrite (IH (S pos) 6 Ht). f_equal.
      unfold last_three. cbn [snd].
      replace (pos + 7 - 3) with (S pos + 3) by lia.
      rewrite <- drop_drop, Ht. reflexivity.
    + destruct (ColorLiteral.hex_run 3 t); [|apply (IH (S pos) 0 Ht)].
      cbn [map Re.m_group1 pred]. rewrite (IH (S pos) 3 Ht). f_equal.
      unfold last_three. cbn [snd].
      replace (pos + 4 - 3) with (S pos + 0) by lia.
      rewrite <- drop_drop, Ht. reflexivity.
Qed.

Lemma embedded_group_shape (s : string) (len : nat) (g : option string) :
  Re.match_at embedded_css_pattern s = Some (len, g) ->
  exists tok, g = Some tok
              /\ String.length tok = 3
              /\ ColorLiteral.hex_run 3 tok = true.
Proof.
  rewrite match_at_embedded_css_pattern.
  destruct s as [|c t]; [discriminate|].
  destruct (Ascii.eqb c "#"); [|discriminate].
  destruct (ColorLiteral.hex_run 6 t) eqn:H6.
  - intros E. injection E as _ <-.
    rewrite (hex_run_split 3 3 t : ColorLiteral.hex_run 6 t = _) in H6.
    apply andb_prop in H6. destruct H6 as [_ H6].
    exists (Str.take 3 (Str.drop 3 t)). split; [reflexivity|].
    exact (hex_run_take 3 _ H6).
  - destruct (ColorLiteral.hex_run 3 t) eqn:H3; [|discriminate].
    intros E. injection E as _ <-.
    exists (Str.take 3 t). split; [reflexivity|].
    exact (hex_run_take 3 _ H3).
Qed.

(** X5. Every token the detector returns is three hexadecimal digits, and
    they are the three characters that end the colour literal it stands for:
    the tokens of a text are, literal by literal, the last three characters
    of each literal.  So a text that starts with [#] and six hexadecimal
    digits has the last three of them as its first token, never the six nor
    the first three, and a text that starts with [#] and exactly three
    digits (no three more follow) has those three; the [#] is never part of
    a token. *)
Theorem embedded_tokens_are_three_hex_digits (content : string) :
  check_embedded_css content
  = map (last_three content) (ColorLiteral.spans content)
  /\ (forall token,
         In token (check_embedded_css content) ->
         String.length token = 3 /\ ColorLiteral.hex_run 3 token = true)
  /\ (forall digits rest,
         content = String "#" (digits ++ rest) ->
         String.length digits = 6 ->
         ColorLiteral.hex_run 6 digits = true ->
         exists tokens,
           check_embedded_css content = Str.drop 3 digits :: tokens)
  /\ (forall digits rest,
         content = String "#" (digits ++ rest) ->
         String.length digits = 3 ->
         ColorLiteral.hex_run 3 digits = true ->
         ColorLiteral.hex_run 3 rest = false ->
         exists tokens, check_embedded_css content = digits :: tokens).
Proof.
  split; [|split; [|split]].
  - unfold check_embedded_css, Re.findall, Re.finditer, ColorLiteral.spans.
    apply finditer_from_tokens. reflexivity.
  - intros token H.
    unfold check_embedded_css, Re.findall, Re.finditer in H.
    apply in_map_iff in H. destruct H as (m & <- & Hm).
    apply (finditer_from_groups embedded_css_pattern
             (fun g => exists tok, g = Some tok
                                   /\ String.length tok = 3
                                   /\ ColorLiteral.hex_run 3 tok = true)) in Hm.
    + destruct Hm as (tok & -> & H). exact H.
    + apply embedded_group_shape.
  - intros digits rest -> L H.
    destruct digits as [|d1 [|d2 [|d3 [|d4 [|d5 [|d6 [|d7 u]]]]]]];
      try discriminate L.
    unfold check_embedded_css, Re.findall, Re.finditer.
    cbn [Re.finditer_from]. rewrite match_at_embedded_css_pattern.
    cbn [Ascii.eqb Bool.eqb String.append].
    replace (ColorLiteral.hex_run
               6 (String d1 (String d2 (String d3 (String d4
                    (String d5 (String d6 rest)))))))
      with true by (symmetry; cbn in H |- *; exact H).
    eexists. reflexivity.
  - intros digits rest -> L H Hrest.
    destruct digits as [|d1 [|d2 [|d3 [|d4 u]]]]; try discriminate L.
    unfold check_embedded_css, Re.findall, Re.finditer.
    cbn [Re.finditer_from]. rewrite match_at_embedded_css_pattern.
    cbn [Ascii.eqb Bool.eqb String.append].
    replace (ColorLiteral.hex_run
               6 (String d1 (String d2 (String d3 rest))))
      with false.
    + replace (ColorLiteral.hex_run 3 (String d1 (String d2 (String d3 rest))))
        with true by (symmetry; cbn in H |- *; exact H).
      eexists. reflexivity.
    + symmetry.
      rewrite (hex_run_split 3 3 _ : ColorLiteral.hex_run 6 _ = _).
      cbn [Str.drop]. rewrite Hrest. apply andb_false_r.
Qed.

Lemma embedded_tokens_are_three_hex_digits_witness :
  (In "b3C" (check_embedded_css "color: #1A2b3C;")
   /\ String.length "b3C" = 3
   /\ ColorLiteral.hex_run 3 "b3C" = true)
  /\ exists tokens, check_embedded_css "#1A2b3C;" = "b3C" :: tokens.
Proof.
  assert (H : In "b3C" (check_embedded_css "color: #1A2b3C;"))
    by (vm_compute; left; reflexivity).
  split; [split; [exact H|]|].
  - apply (proj1 (proj2 (embedded_tokens_are_three_hex_digits
                           "color: #1A2b3C;")) "b3C" H).
  - apply (proj1 (proj2 (proj2 (embedded_tokens_are_three_hex_digits
                                  "#1A2b3C;"))) "1A2b3C" ";");
      reflexivity.
Defined.

(** ** Excluded files, from the command line to the result *)

Lemma mem_map_abspath (os : OS) (file_path : string) (exclude_files : list string) :
  Str.mem file_path (map (abspath os) exclude_files)
  = existsb (fun entry => String.eqb file_path (abspath os entry)) exclude_files.
Proof.
  unfold Str.mem. induction exclude_files as [|entry l IH]; [reflexivity|].
  cbn. rewrite IH. reflexivity.
Qed.

Lemma fold_left_filter_skip {A B : Type} (f : A -> B -> A) (keep : B -> bool) :
  (forall a b, keep b = false -> f a b = a) ->
  forall l a, fold_left f (filter keep l) a = fold_left f l a.
Proof.
  intros H l. induction l as [|b l IH]; intros a; [reflexivity|].
  cbn [filter fold_left]. destruct (keep b) eqn:K.
  - cbn [fold_left]. apply IH.
  - rewrite (H a b K). apply IH.
Qed.

Lemma scan_walk_without_excluded_files
      (os : OS) (directory : string)
      (exclude_files exclude_directories allowed_css_patterns : list string)
      (entries : list (string * list string * list string)) :
  forall st,
    scan_walk os directory (map (abspath os) exclude_files)
              exclude_directories allowed_css_patterns
              (without_excluded_files os exclude_files entries) st
    = scan_walk os directory (map (abspath os) exclude_files)
                exclude_directories allowed_css_patterns entries st.
Proof.
  induction entries as [|[[root dirs] files] entries IH]; intros st;
    [reflexivity|].
  unfold scan_walk, without_excluded_files. cbn [map fold_left fst snd].
  fold (without_excluded_files os exclude_files entries).
  assert (E : dir_step os directory (map (abspath os) exclude_files)
                       exclude_directories allowed_css_patterns st
                       (root, dirs,
                        filter (not_excluded os exclude_files root) files)
              = dir_step os directory (map (abspath os) exclude_files)
                         exclude_directories allowed_css_patterns st
                         (root, dirs, files)).
  { unfold dir_step. destruct (existsb _ exclude_directories); [reflexivity|].
    apply fold_left_filter_skip. intros a file K.
    unfold not_excluded in K. apply negb_false_iff in K.
    unfold file_step. rewrite mem_map_abspath, K. reflexivity. }
  rewrite E. apply IH.
Qed.

(** X10. The entries of [--exclude_files] are compared in absolute form with
    the absolute path of each file, so a file is excluded in whatever form
    the entry and the root were written.  A run of [check_files] prints and
    returns what it would if the walk did not list the files that some
    entry names once both are made absolute: such a file adds no entry and
    no diagnostic, whatever its name and content.  And no entry of the
    result names a file that an entry of [exclude_files] names. *)
Theorem excluded_file_is_skipped_in_any_form
        (os : OS) (directory : string)
        (exclude_files exclude_directories allowed_css_patterns : list string) :
  check_files os directory exclude_files exclude_directories
              allowed_css_patterns
  = check_files
      (with_walk os (fun top =>
                       without_excluded_files os exclude_files (walk os top)))
      directory exclude_files exclude_directories allowed_css_patterns
  /\ (forall entry,
         In entry exclude_files ->
         let result := snd (check_files os directory exclude_files
                                        exclude_directories
                                        allowed_css_patterns) in
         (forall v, In v (violations result) ->
                    v_file_path v <> abspath os entry)
         /\ (forall c, In c (correct_imports result) ->
                       c_file_path c <> abspath os entry)
         /\ (forall e, In e (embedded_violations result) ->
                       e_file_path e <> abspath os entry)).
Proof.
  split.
  - unfold check_files.
    change (walk (with_walk os _) directory)
      with (without_excluded_files os exclude_files (walk os directory)).
    change (scan_walk (with_walk os
                         (fun top =>
                            without_excluded_files os exclude_files
                                                   (walk os top))))
      with (scan_walk os).
    change (abspath (with_walk os
                       (fun top =>
                          without_excluded_files os exclude_files
                                                 (walk os top))))
      with (abspath os).
    rewrite scan_walk_without_excluded_files. reflexivity.
  - intros entry Hin. cbv zeta. unfold check_files.
    cbn [snd results violations correct_imports embedded_violations].
    destruct (scan_walk_entries_sourced os directory
                (map (abspath os) exclude_files)
                (map (abspath os) exclude_directories)
                allowed_css_patterns (walk os directory)) as (Hv & Hc & He).
    assert (M : forall file_path content,
               analyzed os (map (abspath os) exclude_files)
                        (map (abspath os) exclude_directories)
                        (walk os directory) file_path content ->
               file_path <> abspath os entry).
    { intros file_path content (root & dirs & files & file & _ & _ & _ & _
                                & Hmem & _) E.
      rewrite E, mem_in in Hmem; [discriminate Hmem|].
      apply in_map, Hin. }
    repeat split; intros x Hx;
      [destruct (Hv x Hx) as (content & A & _)
      |destruct (Hc x Hx) as (content & A & _)
      |destruct (He x Hx) as (content & A & _)];
      apply (M _ _ A).
Qed.

Lemma excluded_file_is_skipped_in_any_form_witness :
  (In "src/zeta.ts" ["src/zeta.ts"]
   /\ abspath Sample.os "src/zeta.ts" = "/repo/src/zeta.ts")
  /\ (forall e,
         In e (embedded_violations
                 (snd (check_files Sample.os "/repo/src" ["src/zeta.ts"] []
                                   ["app.module.css"]))) ->
         e_file_path e <> abspath Sample.os "src/zeta.ts")
  /\ check_files Sample.os "/repo/src" ["src/zeta.ts"] [] ["app.module.css"]
     = check_files
         (with_walk Sample.os
                    (fun top =>
                       without_excluded_files Sample.os ["src/zeta.ts"]
                                              (walk Sample.os top)))
         "/repo/src" ["src/zeta.ts"] [] ["app.module.css"].
Proof.
  pose proof (excluded_file_is_skipped_in_any_form
                Sample.os "/repo/src" ["src/zeta.ts"] [] ["app.module.css"])
    as [Teq Tno].
  assert (H : In "src/zeta.ts" ["src/zeta.ts"]) by (left; reflexivity).
  split; [split; [exact H|reflexivity]|]. split.
  - exact (proj2 (proj2 (Tno "src/zeta.ts" H))).
  - exact Teq.
Defined.
